(** * Flask-Sitemap: the URL collector of [flask_sitemap/__init__.py]

    A shallow embedding of the [Sitemap] extension class: the Python values
    that generators yield, the store of dictionary objects they share with
    the collector, the resumable generators themselves, and the methods
    [__init__], [init_app], [register_generator], [_routes_without_params]
    and [_generate_all_urls].

    Flask itself (the routing table, [url_for], blueprint registration and
    the request context) is external to the file and enters as Section
    variables. *)

From Stdlib Require Import ZArith.
From stdpp Require Import gmap strings list fin_maps.

Local Open Scope string_scope.
Local Open Scope list_scope.

Set Warnings "-register-all".

(** ** Python values *)

(** The values a generator can yield or put into a tuple.  A dictionary is a
    reference into the store, because the collector updates the dictionaries
    it is handed in place ([values.update(kwargs)]). *)
Inductive pyval : Type :=
| VNone
| VBool (b : bool)
| VInt (z : Z)
| VStr (s : string)
| VDict (l : nat)
| VList (xs : list pyval)
| VTuple (xs : list pyval).

(** The store: dictionary objects, addressed by their index.  Keys are
    strings, as [url_for(endpoint, **values)] requires of [values]. *)
Abbreviation dict := (gmap string pyval).
Abbreviation heap := (list (gmap string pyval)).

(** [{}]: a fresh empty dictionary object. *)
Definition alloc_dict (h : heap) : nat * heap := (length h, h ++ [∅]).

Inductive exn : Type :=
| KeyError (key : string)
| TypeError (msg : string)
| ValueError (msg : string)
| AttributeError (attr : string)
| RuntimeError (msg : string)
| ExternalError (tag : nat).

Definition not_subscriptable : exn := TypeError "object is not subscriptable".
Definition unhashable : exn := TypeError "unhashable type".
Definition not_iterable : exn := TypeError "object is not iterable".
Definition unpack_error : exn := ValueError "wrong number of values to unpack".

(** [hash(v)] succeeds. *)
Fixpoint hashable (v : pyval) : bool :=
  match v with
  | VNone | VBool _ | VInt _ | VStr _ => true
  | VDict _ | VList _ => false
  | VTuple xs => forallb hashable xs
  end.

(** Two lists of equal length whose elements are pairwise related. *)
Definition all2b {A : Type} (f : A -> A -> bool) : list A -> list A -> bool :=
  fix go (xs ys : list A) : bool :=
    match xs, ys with
    | [], [] => true
    | x :: xs', y :: ys' => f x y && go xs' ys'
    | _, _ => false
    end.

(** [a == b] on the values above; [True == 1] and [False == 0] as in Python.
    Dictionaries are never compared here: they are unhashable, so they
    neither enter a set nor are looked up in one. *)
Fixpoint pyval_eqb (a b : pyval) : bool :=
  match a, b with
  | VNone, VNone => true
  | VBool x, VBool y => Bool.eqb x y
  | VBool x, VInt y | VInt y, VBool x => Z.eqb (Z.b2z x) y
  | VInt x, VInt y => Z.eqb x y
  | VStr x, VStr y => String.eqb x y
  | VList xs, VList ys => all2b pyval_eqb xs ys
  | VTuple xs, VTuple ys => all2b pyval_eqb xs ys
  | _, _ => false
  end.

(** [bool(v)]. *)
Definition truthy (h : heap) (v : pyval) : bool :=
  match v with
  | VNone => false
  | VBool b => b
  | VInt z => negb (Z.eqb z 0)
  | VStr s => negb (String.eqb s "")
  | VDict l => match h !! l with Some d => negb (bool_decide (d = ∅)) | None => true end
  | VList xs | VTuple xs => negb (Nat.eqb (length xs) 0)
  end.

(** ** Generators *)

(** A generator object: each [next] observes the current store and either
    finishes, raises, or yields a candidate together with the store as the
    generator left it and the rest of the generator. *)
Inductive gen : Type :=
| Gen (next : heap -> pull)
with pull : Type :=
| Done
| Raise (e : exn)
| Yield (c : pyval) (h : heap) (k : gen).

(** A generator function: [generator.__name__] and [generator()]. *)
Record generator : Type := {
  gen_name : string;
  gen_call : gen
}.

(** The generator that yields the given candidates and touches nothing. *)
Fixpoint gen_of_list (cs : list pyval) : gen :=
  match cs with
  | [] => Gen (fun _ => Done)
  | c :: cs' => Gen (fun h => Yield c h (gen_of_list cs'))
  end.

Definition gen_next (g : gen) : heap -> pull :=
  match g with Gen next => next end.

(** ** The host application *)

(** A routing rule of the application's [url_map], as far as the collector
    reads it: [rule.endpoint], [rule.methods] and [rule.arguments]. *)
Record rule : Type := {
  endpoint : string;
  methods : gset string;
  arguments : gset string
}.

(** A blueprint as [init_app] builds it: its name and the URL rules added to
    it, each with its endpoint name. *)
Record blueprint : Type := {
  bp_name : pyval;
  bp_url_rules : list (pyval * string)
}.

Definition Blueprint (name : pyval) : blueprint :=
  {| bp_name := name; bp_url_rules := [] |}.

Definition add_url_rule (url : pyval) (ep : string) (bp : blueprint) : blueprint :=
  {| bp_name := bp_name bp; bp_url_rules := bp_url_rules bp ++ [(url, ep)] |}.

(** The Flask application object.  [extensions] is [None] while the object
    has no such attribute; its entries are extension objects, named by their
    identity. *)
Record flask_app : Type := {
  extensions : option (gmap string nat);
  config : gmap string pyval;
  url_map : list rule
}.

(** ** The extension object *)

(** An entry of [self.url_generators]: the bound method
    [self._routes_without_params], which reads [self.app] when it is called,
    or a registered generator function. *)
Inductive url_generator : Type :=
| RoutesWithoutParams
| Registered (g : generator).

Record Sitemap : Type := {
  sm_id : nat;
  app : option flask_app;
  url_generators : list url_generator;
  sm_blueprint : option blueprint
}.

(** What one candidate comes to: a record to yield, [continue], or an
    exception. *)
Inductive outcome : Type :=
| Emit (result : gmap string pyval)
| Skip
| Fail (e : exn).

(** [generated[0:2]] and [generated[2:]]: only lists and tuples get here and
    can be sliced. *)
Definition slice_to (n : nat) (v : pyval) : exn + list pyval :=
  match v with
  | VList xs | VTuple xs => inr (take n xs)
  | _ => inl not_subscriptable
  end.

Definition slice_from (n : nat) (v : pyval) : exn + list pyval :=
  match v with
  | VList xs | VTuple xs => inr (drop n xs)
  | _ => inl not_subscriptable
  end.

(** [set(v)] for the configured ignore list, as the list of its members. *)
Definition py_set (h : heap) (v : pyval) : exn + list pyval :=
  match v with
  | VList xs | VTuple xs => if forallb hashable xs then inr xs else inl unhashable
  | VStr s => inr ((fun c => VStr (String c "")) <$> String.list_ascii_of_string s)
  | VDict l =>
      match h !! l with
      | Some d => inr (VStr <$> (map_to_list d).*1)
      | None => inl not_iterable
      end
  | _ => inl not_iterable
  end.

(** [x in s] for a set [s]. *)
Definition py_in (x : pyval) (s : list pyval) : bool := existsb (pyval_eqb x) s.

(** The loop over [['lastmod', 'changefreq', 'priority']]: it stops at the
    first key for which [left] is empty. *)
Fixpoint assign_optional (keys : list string) (left : list pyval)
    (result : gmap string pyval) : gmap string pyval :=
  match keys with
  | [] => result
  | key :: keys' =>
      match left with
      | [] => result
      | x :: left' => assign_optional keys' left' (<[key := x]> result)
      end
  end.

Definition optional_keys : list string := ["lastmod"; "changefreq"; "priority"].

(** ** The methods of [Sitemap] *)

Section Collector.

(** [flask.url_for(endpoint, **values)]: the absolute URL, or the error
    Flask raises. *)
Variable url_for : pyval -> gmap string pyval -> exn + string.

(** [app.register_blueprint(blueprint, url_prefix=...)]: the error Flask
    raises, or the application's routing table with the blueprint's rules
    added. *)
Variable register_blueprint :
  blueprint -> pyval -> flask_app -> exn + list rule.

(** The attributes of the [config] module, in the order of [dir(config)]. *)
Variable config_module : list (string * pyval).

(** *** [_generate_all_urls]: the body of the inner loop *)

(** Lines 141-146, once [endpoint] and [values] are bound: the ignore
    check, [values.update(kwargs)] on the dictionary object itself, and
    [url_for]. *)
Definition resolve (ignore : list pyval) (kwargs : gmap string pyval)
    (ep values : pyval) (result : gmap string pyval) (h : heap)
    : outcome * heap :=
  if negb (hashable ep) then (Fail unhashable, h)
  else if py_in ep ignore then (Skip, h)
  else
    match values with
    | VDict l =>
        match h !! l with
        | Some d =>
            let d' := kwargs ∪ d in
            let h' := <[l := d']> h in
            match url_for ep d' with
            | inl e => (Fail e, h')
            | inr u => (Emit (<["loc" := VStr u]> result), h')
            end
        | None => (Fail (AttributeError "update"), h)
        end
    | _ => (Fail (AttributeError "update"), h)
    end.

(** Lines 121-147 for one [generated] of the generator called [name]. *)
Definition process_generated (ignore : list pyval) (kwargs : gmap string pyval)
    (name : string) (generated : pyval) (h : heap) : outcome * heap :=
  let result : gmap string pyval := ∅ in
  match generated with
  | VStr s => (Emit (<["loc" := VStr s]> result), h)
  | VDict _ => resolve ignore kwargs (VStr name) generated result h
  | _ =>
      match slice_to 2 generated with
      | inl e => (Fail e, h)
      | inr [ep; values] =>
          match slice_from 2 generated with
          | inl e => (Fail e, h)
          | inr left_ =>
              resolve ignore kwargs ep values
                (assign_optional optional_keys left_ result) h
          end
      | inr _ => (Fail unpack_error, h)
      end
  end.

(** [for generated in generator(): ...]: the records yielded, the
    exception that ended the loop if one did, and the store afterwards. *)
Fixpoint run_generator (ignore : list pyval) (kwargs : gmap string pyval)
    (name : string) (g : gen) (h : heap)
    : list (gmap string pyval) * option exn * heap :=
  match g with
  | Gen next =>
      match next h with
      | Done => ([], None, h)
      | Raise e => ([], Some e, h)
      | Yield c h1 k =>
          match process_generated ignore kwargs name c h1 with
          | (Fail e, h2) => ([], Some e, h2)
          | (Skip, h2) => run_generator ignore kwargs name k h2
          | (Emit r, h2) =>
              let '(rs, e, h3) := run_generator ignore kwargs name k h2 in
              (r :: rs, e, h3)
          end
      end
  end.

(** *** [_routes_without_params] *)

Definition rule_without_params (r : rule) : bool :=
  bool_decide ("GET" ∈ methods r) && Nat.eqb (size (arguments r)) 0.

(** [for rule in self.app.url_map.iter_rules(): ...]; every [{}] is a new
    dictionary object. *)
Fixpoint iter_rules (rules : list rule) : gen :=
  Gen (fun h =>
    match rules with
    | [] => Done
    | r :: rules' =>
        if rule_without_params r then
          let '(l, h') := alloc_dict h in
          Yield (VTuple [VStr (endpoint r); VDict l]) h' (iter_rules rules')
        else gen_next (iter_rules rules') h
    end).

Definition _routes_without_params (self : Sitemap) : gen :=
  Gen (fun h =>
    match app self with
    | None => Raise (AttributeError "app")
    | Some a =>
        match config a !! "SITEMAP_INCLUDE_RULES_WITHOUT_PARAMS" with
        | None => Raise (KeyError "SITEMAP_INCLUDE_RULES_WITHOUT_PARAMS")
        | Some v =>
            if truthy h v then gen_next (iter_rules (url_map a)) h else Done
        end
    end).

(** The generator function behind an entry of [self.url_generators]. *)
Definition generator_of (self : Sitemap) (g : url_generator) : generator :=
  match g with
  | RoutesWithoutParams =>
      {| gen_name := "_routes_without_params";
         gen_call := _routes_without_params self |}
  | Registered g => g
  end.

(** [for generator in self.url_generators: ...]. *)
Fixpoint run_generators (ignore : list pyval) (kwargs : gmap string pyval)
    (self : Sitemap) (gs : list url_generator) (h : heap)
    : list (gmap string pyval) * option exn * heap :=
  match gs with
  | [] => ([], None, h)
  | g :: gs' =>
      let g' := generator_of self g in
      match run_generator ignore kwargs (gen_name g') (gen_call g') h with
      | (rs, Some e, h1) => (rs, Some e, h1)
      | (rs, None, h1) =>
          let '(rs', e, h2) := run_generators ignore kwargs self gs' h1 in
          (rs ++ rs', e, h2)
      end
  end.

(** [dict(_external=True, _scheme=self.app.config.get('SITEMAP_URL_SCHEME'))]. *)
Definition url_kwargs (a : flask_app) : gmap string pyval :=
  <["_external" := VBool true]>
    (<["_scheme" := default VNone (config a !! "SITEMAP_URL_SCHEME")]> ∅).

(** [set(self.app.config['SITEMAP_IGNORE_ENDPOINTS'] or [])]. *)
Definition ignore_set (a : flask_app) (h : heap) : exn + list pyval :=
  match config a !! "SITEMAP_IGNORE_ENDPOINTS" with
  | None => inl (KeyError "SITEMAP_IGNORE_ENDPOINTS")
  | Some v => py_set h (if truthy h v then v else VList [])
  end.

(** Running the generator object that [_generate_all_urls] returns to its
    end: the records it yields in order, the exception it raises if any,
    and the store it leaves. *)
Definition _generate_all_urls (self : Sitemap) (h : heap)
    : list (gmap string pyval) * option exn * heap :=
  match app self with
  | None => ([], Some (AttributeError "app"), h)
  | Some a =>
      match ignore_set a h with
      | inl e => ([], Some e, h)
      | inr ignore =>
          run_generators ignore (url_kwargs a) self (url_generators self) h
      end
  end.

(** *** [register_generator] *)

(** Appends to [self.url_generators] and returns the generator itself. *)
Definition register_generator (self : Sitemap) (g : generator)
    : Sitemap * generator :=
  ({| sm_id := sm_id self; app := app self;
      url_generators := url_generators self ++ [Registered g];
      sm_blueprint := sm_blueprint self |}, g).

(** *** [init_app] *)

(** [config.setdefault(k, v)]. *)
Definition setdefault (k : string) (v : pyval) (c : gmap string pyval)
    : gmap string pyval :=
  match c !! k with
  | Some _ => c
  | None => <[k := v]> c
  end.

(** [for k in dir(config): if k.startswith('SITEMAP_'): ...]. *)
Definition set_default_configuration (c : gmap string pyval)
    : gmap string pyval :=
  fold_left
    (fun c kv => if String.prefix "SITEMAP_" kv.1 then setdefault kv.1 kv.2 c else c)
    config_module c.

(** [c.get(k)]. *)
Definition config_get (c : gmap string pyval) (k : string) : pyval :=
  default VNone (c !! k).

Definition already_initialized : exn :=
  RuntimeError "Flask application already initialized".

(** [self.init_app(app)]: the exception raised if any, and [self] and the
    application object as the call leaves them.  [self.app] is the
    application object itself, so it is kept equal to it. *)
Definition init_app (self : Sitemap) (a : flask_app) (h : heap)
    : option exn * Sitemap * flask_app :=
  let exts := default ∅ (extensions a) in
  let a1 := {| extensions := Some exts; config := config a;
               url_map := url_map a |} in
  if bool_decide (is_Some (exts !! "sitemap")) then
    (Some already_initialized,
     {| sm_id := sm_id self; app := Some a1;
        url_generators := url_generators self;
        sm_blueprint := sm_blueprint self |}, a1)
  else
    let a2 := {| extensions := Some (<["sitemap" := sm_id self]> exts);
                 config := set_default_configuration (config a);
                 url_map := url_map a |} in
    if truthy h (config_get (config a2) "SITEMAP_BLUEPRINT") then
      let bp := add_url_rule (config_get (config a2) "SITEMAP_ENDPOINT_URL")
                  "sitemap"
                  (Blueprint (config_get (config a2) "SITEMAP_BLUEPRINT")) in
      match register_blueprint bp
              (config_get (config a2) "SITEMAP_BLUEPRINT_URL_PREFIX") a2 with
      | inl e =>
          (Some e,
           {| sm_id := sm_id self; app := Some a2;
              url_generators := url_generators self;
              sm_blueprint := Some bp |}, a2)
      | inr rules =>
          let a3 := {| extensions := extensions a2; config := config a2;
                       url_map := rules |} in
          (None,
           {| sm_id := sm_id self; app := Some a3;
              url_generators := url_generators self;
              sm_blueprint := Some bp |}, a3)
      end
    else
      (None,
       {| sm_id := sm_id self; app := Some a2;
          url_generators := url_generators self;
          sm_blueprint := sm_blueprint self |}, a2).

(** *** [__init__] *)

(** [Sitemap(app)]: the new object, identified by [id], and what
    [init_app] did if an application was given. *)
Definition __init__ (id : nat) (a : option flask_app) (h : heap)
    : option exn * Sitemap * option flask_app :=
  let self := {| sm_id := id; app := None;
                 url_generators := [RoutesWithoutParams];
                 sm_blueprint := None |} in
  match a with
  | None => (None, self, None)
  | Some a =>
      let '(e, self', a') := init_app self a h in (e, self', Some a')
  end.

End Collector.

(** ** Helpers for the statements *)


(** Every candidate the generator can yield, whatever store it is resumed
    in, satisfies [P]. *)
Fixpoint yields_only (P : pyval -> Prop) (g : gen) : Prop :=
  match g with
  | Gen next =>
      forall h,
        match next h with
        | Yield c _ k => P c /\ yields_only P k
        | _ => True
        end
  end.

(** The endpoint and the parameters that lines 125-132 bind for a candidate
    that is a mapping or a sequence of at least two elements. *)
Definition candidate_endpoint (name : string) (c : pyval) : option (pyval * pyval) :=
  match c with
  | VDict l => Some (VStr name, VDict l)
  | VList (ep :: values :: _) | VTuple (ep :: values :: _) => Some (ep, values)
  | _ => None
  end.




(** The generators registered one after the other on [self]. *)
Definition register_all (self : Sitemap) (gs : list generator) : Sitemap :=
  fold_left (fun s g => (register_generator s g).1) gs self.

(** One loop after another: the second starts in the store the first left
    and does not start at all if the first raised. *)
Definition then_run
    (r1 : list (gmap string pyval) * option exn * heap)
    (k : heap -> list (gmap string pyval) * option exn * heap)
    : list (gmap string pyval) * option exn * heap :=
  match r1 with
  | (rs1, Some e, h1) => (rs1, Some e, h1)
  | (rs1, None, h1) => let '(rs2, e, h2) := k h1 in (rs1 ++ rs2, e, h2)
  end.

(** The generator function called [name] that yields the given strings. *)
Definition string_generator (g : string * list string) : url_generator :=
  Registered {| gen_name := g.1; gen_call := gen_of_list (VStr <$> g.2) |}.

(** The record [{loc: s}]. *)
Definition loc_record (s : string) : gmap string pyval := {["loc" := VStr s]}.

(** An induction principle for [pyval] that reaches inside lists and
    tuples. *)
Section PyvalInd.
Variable P : pyval -> Prop.
Hypothesis HNone : P VNone.
Hypothesis HBool : forall b, P (VBool b).
Hypothesis HInt : forall z, P (VInt z).
Hypothesis HStr : forall s, P (VStr s).
Hypothesis HDict : forall l, P (VDict l).
Hypothesis HList : forall xs, Forall P xs -> P (VList xs).
Hypothesis HTuple : forall xs, Forall P xs -> P (VTuple xs).

Fixpoint pyval_nested_ind (v : pyval) : P v :=
  let fix go (xs : list pyval) : Forall P xs :=
    match xs with
    | [] => @List.Forall_nil pyval P
    | x :: xs' => @List.Forall_cons pyval P x xs' (pyval_nested_ind x) (go xs')
    end in
  match v with
  | VNone => HNone
  | VBool b => HBool b
  | VInt z => HInt z
  | VStr s => HStr s
  | VDict l => HDict l
  | VList xs => HList xs (go xs)
  | VTuple xs => HTuple xs (go xs)
  end.
End PyvalInd.

(** ** Sample data *)

(** A stand-in for [url_for]: string endpoints resolve under one host. *)
Definition sample_url_for (ep : pyval) (values : gmap string pyval) : exn + string :=
  match ep with
  | VStr s => inr ("http://localhost/" +:+ s)
  | _ => inl (ExternalError 0)
  end.

(** A stand-in for [register_blueprint]: the sitemap route joins the
    routing table. *)
Definition sample_register_blueprint (bp : blueprint) (prefix : pyval)
    (a : flask_app) : exn + list rule :=
  inr (url_map a ++
       [{| endpoint := "flask_sitemap.sitemap"; methods := {["GET"]};
           arguments := ∅ |}]).

Definition sample_config_module : list (string * pyval) :=
  [("SITEMAP_BLUEPRINT", VStr "flask_sitemap");
   ("SITEMAP_ENDPOINT_URL", VStr "/sitemap.xml");
   ("SITEMAP_IGNORE_ENDPOINTS", VNone);
   ("SITEMAP_INCLUDE_RULES_WITHOUT_PARAMS", VBool true);
   ("__name__", VStr "flask_sitemap.config")].

Definition sample_rules : list rule :=
  [{| endpoint := "index"; methods := {["GET"]}; arguments := ∅ |};
   {| endpoint := "post"; methods := {["GET"]}; arguments := {["slug"]} |};
   {| endpoint := "upload"; methods := {["POST"]}; arguments := ∅ |}].

(** An application that sets the two options the collector reads. *)
Definition sample_app : flask_app :=
  {| extensions := None;
     config := <["SITEMAP_INCLUDE_RULES_WITHOUT_PARAMS" := VBool true]>
                 (<["SITEMAP_IGNORE_ENDPOINTS" := VList [VStr "admin"]]> ∅);
     url_map := sample_rules |}.

(** The extension on [sample_app] with the given generators registered. *)
Definition sample_sitemap (gs : list generator) : Sitemap :=
  {| sm_id := 1; app := Some sample_app;
     url_generators := RoutesWithoutParams :: (Registered <$> gs);
     sm_blueprint := None |}.

(** [Sitemap(sample_app)]: what [init_app] returns on the new object. *)
Definition sample_installed : option exn * Sitemap * flask_app :=
  init_app sample_register_blueprint sample_config_module
    {| sm_id := 1; app := None; url_generators := [RoutesWithoutParams];
       sm_blueprint := None |}
    sample_app [].

(** Two generator functions: one yields paths, one yields a mapping, a
    tuple with all optional fields, and a path. *)
Definition sample_pages : generator :=
  {| gen_name := "pages"; gen_call := gen_of_list [VStr "/about"; VStr "/contact"] |}.

Definition sample_post : pyval :=
  VTuple [VStr "blog.post"; VDict 0; VStr "2024-01-01"; VStr "daily"; VInt 1].

Definition sample_news : generator :=
  {| gen_name := "news";
     gen_call := gen_of_list [VDict 0; sample_post; VStr "/archive"] |}.

(** A store with the one dictionary [{'slug': 'x'}]. *)
Definition sample_heap : heap := [{["slug" := VStr "x"]}].

(** A record has a [loc] that is a non-empty string. *)
Definition nonempty_loc (r : gmap string pyval) : Prop :=
  exists u, r !! "loc" = Some (VStr u) /\ u ≠ "".

(** The records of a run. *)
Definition records {E H : Type} (run : list (gmap string pyval) * E * H)
    : list (gmap string pyval) := run.1.1.

Scheme gen_pull_ind := Induction for gen Sort Prop
  with pull_gen_ind := Induction for pull Sort Prop.

(** * Properties *)

(** ** The optional fields of a tuple candidate *)

Lemma assign_optional_lookup (left_ : list pyval) :
  let r := assign_optional optional_keys left_ ∅ in
  r !! "lastmod" = left_ !! 0%nat /\
  r !! "changefreq" = left_ !! 1%nat /\
  r !! "priority" = left_ !! 2%nat /\
  (forall k, k ≠ "lastmod" -> k ≠ "changefreq" -> k ≠ "priority" -> r !! k = None).
Proof.
  destruct left_ as [|x1 [|x2 [|x3 rest]]]; simpl;
    repeat split; intros; by simplify_map_eq.
Qed.

Section CollectorFacts.

Variable url_for : pyval -> gmap string pyval -> exn + string.
Variables (ignore : list pyval) (kwargs : gmap string pyval).

Lemma resolve_live (ep : pyval) (l : nat) (d result : gmap string pyval) (h : heap) :
  hashable ep = true ->
  py_in ep ignore = false ->
  h !! l = Some d ->
  resolve url_for ignore kwargs ep (VDict l) result h =
    (match url_for ep (kwargs ∪ d) with
     | inl e => Fail e
     | inr u => Emit (<["loc" := VStr u]> result)
     end, <[l := kwargs ∪ d]> h).
Proof.
  intros Hh Hin Hl. unfold resolve. rewrite Hh, Hin, Hl. simpl.
  by destruct (url_for ep (kwargs ∪ d)).
Qed.

Lemma resolve_ignored (ep values : pyval) (result : gmap string pyval) (h : heap) :
  hashable ep = true ->
  py_in ep ignore = true ->
  resolve url_for ignore kwargs ep values result h = (Skip, h).
Proof. intros Hh Hin. unfold resolve. by rewrite Hh, Hin. Qed.

Lemma process_sequence (name : string) (c ep values : pyval) (xs : list pyval) (h : heap) :
  c = VList (ep :: values :: xs) \/ c = VTuple (ep :: values :: xs) ->
  process_generated url_for ignore kwargs name c h =
    resolve url_for ignore kwargs ep values
      (assign_optional optional_keys xs ∅) h.
Proof. by intros [-> | ->]. Qed.

End CollectorFacts.

(** ** Candidates one at a time *)

(** C2.  A sequence candidate [(endpoint, values, x1, ..., xk)] that is
    resolved yields a record whose [lastmod], [changefreq] and [priority]
    are the third, fourth and fifth elements, each present exactly when the
    element is, next to [loc] and nothing else; with two elements the record
    is [{loc}] alone.  (Elements past the fifth are dropped, so lengths 2 to
    5 are the case [length xs <= 3].) *)
Theorem tuple_candidate_fields
    (url_for : pyval -> gmap string pyval -> exn + string)
    (ignore : list pyval) (kwargs : gmap string pyval) (name : string)
    (c ep : pyval) (l : nat) (xs : list pyval) (d : gmap string pyval)
    (u : string) (h : heap) :
  c = VList (ep :: VDict l :: xs) \/ c = VTuple (ep :: VDict l :: xs) ->
  hashable ep = true ->
  py_in ep ignore = false ->
  h !! l = Some d ->
  url_for ep (kwargs ∪ d) = inr u ->
  exists r,
    process_generated url_for ignore kwargs name c h
      = (Emit r, <[l := kwargs ∪ d]> h) /\
    r !! "loc" = Some (VStr u) /\
    r !! "lastmod" = xs !! 0%nat /\
    r !! "changefreq" = xs !! 1%nat /\
    r !! "priority" = xs !! 2%nat /\
    (forall k, k ≠ "loc" -> k ≠ "lastmod" -> k ≠ "changefreq" ->
               k ≠ "priority" -> r !! k = None) /\
    (xs = [] -> r = {["loc" := VStr u]}).
Proof.
  intros Hc Hh Hin Hl Hu.
  exists (<["loc" := VStr u]> (assign_optional optional_keys xs ∅)).
  destruct (assign_optional_lookup xs) as (H1 & H2 & H3 & Hk).
  split.
  { rewrite (process_sequence _ _ _ _ _ _ _ _ _ Hc).
    rewrite (resolve_live _ _ _ _ _ _ _ _ Hh Hin Hl). by rewrite Hu. }
  split; [apply lookup_insert_eq|].
  split; [by rewrite lookup_insert_ne|].
  split; [by rewrite lookup_insert_ne|].
  split; [by rewrite lookup_insert_ne|].
  split.
  - intros k ? ? ? ?. rewrite lookup_insert_ne by done. by apply Hk.
  - intros ->. simpl. apply insert_empty.
Qed.

Lemma tuple_candidate_fields_witness :
  hashable (VStr "blog.post") = true /\
  py_in (VStr "blog.post") [VStr "admin"] = false /\
  sample_heap !! 0%nat = Some {["slug" := VStr "x"]} /\
  exists r,
    (process_generated sample_url_for [VStr "admin"] (url_kwargs sample_app)
       "news" sample_post sample_heap).1 = Emit r /\
    r !! "loc" = Some (VStr "http://localhost/blog.post") /\
    r !! "lastmod" = Some (VStr "2024-01-01") /\
    r !! "changefreq" = Some (VStr "daily") /\
    r !! "priority" = Some (VInt 1).
Proof.
  split; [reflexivity|]. split; [reflexivity|]. split; [reflexivity|].
  destruct (tuple_candidate_fields sample_url_for [VStr "admin"]
              (url_kwargs sample_app) "news" sample_post (VStr "blog.post") 0
              [VStr "2024-01-01"; VStr "daily"; VInt 1] {["slug" := VStr "x"]}
              "http://localhost/blog.post" sample_heap
              (or_intror eq_refl) eq_refl eq_refl eq_refl eq_refl)
    as (r & Hrun & Hloc & Hmod & Hfreq & Hprio & _).
  exists r. rewrite Hrun. repeat split; assumption.
Defined.

(** C3.  A mapping yielded by the generator named [g] is processed exactly
    as the tuple [(g, mapping)] is, whichever generator yields the tuple:
    same endpoint, same parameters, same ignore check, same store
    afterwards; and a record that comes out of either has [loc] alone. *)
Theorem mapping_candidate_as_tuple
    (url_for : pyval -> gmap string pyval -> exn + string)
    (ignore : list pyval) (kwargs : gmap string pyval)
    (g g' : string) (l : nat) (h : heap) :
  process_generated url_for ignore kwargs g (VDict l) h
    = process_generated url_for ignore kwargs g' (VTuple [VStr g; VDict l]) h /\
  process_generated url_for ignore kwargs g (VDict l) h
    = resolve url_for ignore kwargs (VStr g) (VDict l) ∅ h /\
  (forall r h',
     process_generated url_for ignore kwargs g (VDict l) h = (Emit r, h') ->
     exists u, r = {["loc" := VStr u]}).
Proof.
  split; [done|]. split; [done|].
  intros r h'. simpl. unfold resolve. simpl.
  destruct (py_in (VStr g) ignore); [done|].
  destruct (h !! l) as [d|]; [|done].
  destruct (url_for (VStr g) (kwargs ∪ d)) as [e|u]; [done|].
  intros [= <- _]. exists u. apply insert_empty.
Qed.

Lemma mapping_candidate_as_tuple_witness :
  process_generated sample_url_for [VStr "admin"] (url_kwargs sample_app)
    "news" (VDict 0) sample_heap
    = (Emit {["loc" := VStr "http://localhost/news"]},
       [url_kwargs sample_app ∪ {["slug" := VStr "x"]}]) /\
  exists u,
    ({["loc" := VStr "http://localhost/news"]} : gmap string pyval)
      = {["loc" := VStr u]}.
Proof.
  assert (Hrun : process_generated sample_url_for [VStr "admin"]
                   (url_kwargs sample_app) "news" (VDict 0) sample_heap
                 = (Emit {["loc" := VStr "http://localhost/news"]},
                    [url_kwargs sample_app ∪ {["slug" := VStr "x"]}]))
    by (vm_compute; reflexivity).
  split; [exact Hrun|].
  destruct (mapping_candidate_as_tuple sample_url_for [VStr "admin"]
              (url_kwargs sample_app) "news" "pages" 0 sample_heap)
    as (_ & _ & Honly).
  exact (Honly _ _ Hrun).
Defined.

(** C5.  A string candidate becomes the record [{loc: s}] with the store
    untouched, whatever [url_for] and the ignore set are, also when the
    string itself is in the ignore set; the loop yields that record and goes
    on with the generator. *)
Theorem string_candidate_verbatim
    (url_for : pyval -> gmap string pyval -> exn + string)
    (ignore : list pyval) (kwargs : gmap string pyval)
    (name s : string) (k : gen) (h : heap) :
  process_generated url_for ignore kwargs name (VStr s) h
    = (Emit {["loc" := VStr s]}, h) /\
  process_generated url_for (VStr s :: ignore) kwargs name (VStr s) h
    = (Emit {["loc" := VStr s]}, h) /\
  run_generator url_for ignore kwargs name (Gen (fun h' => Yield (VStr s) h' k)) h
    = (let '(rs, e, h') := run_generator url_for ignore kwargs name k h in
       ({["loc" := VStr s]} :: rs, e, h')).
Proof.
  assert (Hrec : (<["loc" := VStr s]> ∅ : gmap string pyval) = {["loc" := VStr s]})
    by apply insert_empty.
  repeat split; simpl; by rewrite ?Hrec.
Qed.

(** ** Membership in the ignore set *)

Lemma pyval_eqb_hashable (a b : pyval) :
  pyval_eqb a b = true -> hashable a = hashable b.
Proof.
  revert b. induction a as [| | | | |xs IH|xs IH] using pyval_nested_ind;
    intros [] Heq; simpl in *; try done.
  revert xs0 Heq. induction IH as [|x xs Hx _ IHxs]; intros [|y ys] Heq;
    simpl in *; try done.
  apply andb_prop in Heq as [Hxy Hrest].
  by rewrite (Hx _ Hxy), (IHxs _ Hrest).
Qed.

Lemma py_set_hashable (h : heap) (v : pyval) (s : list pyval) :
  py_set h v = inr s -> forallb hashable s = true.
Proof.
  destruct v; simpl; try done.
  - intros [= <-]. induction (String.list_ascii_of_string s0); simpl; auto.
  - destruct (h !! l); [|done]. intros [= <-].
    induction ((map_to_list g).*1); simpl; auto.
  - destruct (forallb hashable xs) eqn:E; [|done]. by intros [= <-].
  - destruct (forallb hashable xs) eqn:E; [|done]. by intros [= <-].
Qed.

Lemma py_in_hashable (x : pyval) (s : list pyval) :
  forallb hashable s = true -> py_in x s = true -> hashable x = true.
Proof.
  unfold py_in. induction s as [|y s IH]; simpl; [done|].
  intros [Hy Hs]%andb_prop [Hxy | Hin]%orb_prop.
  - by rewrite (pyval_eqb_hashable _ _ Hxy).
  - by apply IH.
Qed.

Lemma ignore_set_hashable (a : flask_app) (h : heap) (ignore : list pyval) (x : pyval) :
  ignore_set a h = inr ignore -> py_in x ignore = true -> hashable x = true.
Proof.
  unfold ignore_set. destruct (config a !! "SITEMAP_IGNORE_ENDPOINTS"); [|done].
  intros Hs. apply py_in_hashable. by apply py_set_hashable in Hs.
Qed.

(** ** The loops *)

Section LoopFacts.

Variable url_for : pyval -> gmap string pyval -> exn + string.
Variables (ignore : list pyval) (kwargs : gmap string pyval).

Lemma then_run_nil (k : heap -> list (gmap string pyval) * option exn * heap) (h : heap) :
  then_run ([], None, h) k = k h.
Proof. simpl. by destruct (k h) as [[rs e] h']. Qed.

Lemma then_run_ext (run : list (gmap string pyval) * option exn * heap)
    (k1 k2 : heap -> list (gmap string pyval) * option exn * heap) :
  (forall h, k1 h = k2 h) -> then_run run k1 = then_run run k2.
Proof. intros Hk. destruct run as [[rs [e|]] h]; simpl; [done|]. by rewrite Hk. Qed.

Lemma then_run_cons (r : gmap string pyval) (run : list (gmap string pyval) * option exn * heap)
    (k : heap -> list (gmap string pyval) * option exn * heap) :
  then_run (let '(rs, e, h) := run in (r :: rs, e, h)) k
    = (let '(rs, e, h) := then_run run k in (r :: rs, e, h)).
Proof.
  destruct run as [[rs [e|]] h]; simpl; [done|].
  by destruct (k h) as [[rs2 e2] h2].
Qed.

Lemma run_generator_cons (name : string) (c : pyval) (cs : list pyval) (h : heap) :
  run_generator url_for ignore kwargs name (gen_of_list (c :: cs)) h =
    match process_generated url_for ignore kwargs name c h with
    | (Fail e, h2) => ([], Some e, h2)
    | (Skip, h2) => run_generator url_for ignore kwargs name (gen_of_list cs) h2
    | (Emit r, h2) =>
        let '(rs, e, h3) :=
          run_generator url_for ignore kwargs name (gen_of_list cs) h2 in
        (r :: rs, e, h3)
    end.
Proof. done. Qed.

Lemma run_generator_app (name : string) (cs1 cs2 : list pyval) (h : heap) :
  run_generator url_for ignore kwargs name (gen_of_list (cs1 ++ cs2)) h =
    then_run (run_generator url_for ignore kwargs name (gen_of_list cs1) h)
             (run_generator url_for ignore kwargs name (gen_of_list cs2)).
Proof.
  revert h. induction cs1 as [|c cs1 IH]; intros h.
  - symmetry. apply then_run_nil.
  - rewrite <- app_comm_cons, !run_generator_cons.
    destruct (process_generated url_for ignore kwargs name c h) as [[r| |e] h2];
      [|apply IH|done].
    by rewrite IH, then_run_cons.
Qed.

Lemma run_generators_app (self : Sitemap) (gs1 gs2 : list url_generator) (h : heap) :
  run_generators url_for ignore kwargs self (gs1 ++ gs2) h =
    then_run (run_generators url_for ignore kwargs self gs1 h)
             (run_generators url_for ignore kwargs self gs2).
Proof.
  revert h. induction gs1 as [|g gs1 IH]; intros h.
  - symmetry. apply then_run_nil.
  - simpl.
    destruct (run_generator url_for ignore kwargs (gen_name (generator_of self g))
                (gen_call (generator_of self g)) h) as [[rs [e|]] h1]; [done|].
    rewrite IH.
    destruct (run_generators url_for ignore kwargs self gs1 h1) as [[rs1 [e1|]] h2];
      simpl; [done|].
    destruct (run_generators url_for ignore kwargs self gs2 h2) as [[rs2 e2] h3].
    by rewrite app_assoc.
Qed.

Lemma run_generators_one (self : Sitemap) (g : url_generator) (h : heap) :
  run_generators url_for ignore kwargs self [g] h =
    run_generator url_for ignore kwargs (gen_name (generator_of self g))
      (gen_call (generator_of self g)) h.
Proof.
  cbn [run_generators].
  destruct (run_generator _ _ _ _ _ _) as [[rs [e|]] h1]; [done|].
  by rewrite app_nil_r.
Qed.

Lemma run_generator_strings (name : string) (ss : list string) (h : heap) :
  run_generator url_for ignore kwargs name (gen_of_list (VStr <$> ss)) h
    = (loc_record <$> ss, None, h).
Proof.
  induction ss as [|s ss IH]; [done|].
  rewrite fmap_cons, run_generator_cons. simpl. rewrite IH.
  unfold loc_record. by rewrite insert_empty.
Qed.

Lemma run_generators_strings (self : Sitemap) (gs : list (string * list string)) (h : heap) :
  run_generators url_for ignore kwargs self (string_generator <$> gs) h
    = (loc_record <$> concat (gs.*2), None, h).
Proof.
  induction gs as [|[name ss] gs IH]; [done|].
  rewrite fmap_cons. simpl. rewrite run_generator_strings, IH.
  by rewrite fmap_app.
Qed.

End LoopFacts.

(** ** The extension object *)

Lemma init_app_self
    (register_blueprint : blueprint -> pyval -> flask_app -> exn + list rule)
    (config_module : list (string * pyval))
    (self self' : Sitemap) (a a' : flask_app) (h : heap) (e : option exn) :
  init_app register_blueprint config_module self a h = (e, self', a') ->
  app self' = Some a' /\ url_generators self' = url_generators self /\
  sm_id self' = sm_id self.
Proof.
  unfold init_app. repeat case_match; by intros [= <- <- <-].
Qed.

Lemma register_all_fields (gs : list generator) (self : Sitemap) :
  app (register_all self gs) = app self /\
  url_generators (register_all self gs)
    = url_generators self ++ (Registered <$> gs).
Proof.
  revert self. induction gs as [|g gs IH]; intros self.
  - simpl. by rewrite app_nil_r.
  - change (register_all self (g :: gs))
      with (register_all (register_generator self g).1 gs).
    destruct (IH (register_generator self g).1) as [-> ->]. simpl.
    by rewrite <- app_assoc.
Qed.

(** ** Order of the records *)

(** C1.  After [Sitemap(app)] (or [Sitemap()]) and the registration of [gs]
    one after the other, [url_generators] is the routes-without-params
    generator followed by [gs] in registration order, and [_generate_all_urls] runs that
    generator first and then [gs] in that order.  The loop over a list of
    generators gives the records of its first part followed by those of the
    rest (nothing more once a part has raised), and so does the loop over
    the candidates of one generator.  Generators that yield strings make the
    order visible: the records are the strings of the first generator in the
    order yielded, then those of the second, and so on. *)
Theorem records_in_registration_order
    (url_for : pyval -> gmap string pyval -> exn + string)
    (register_blueprint : blueprint -> pyval -> flask_app -> exn + list rule)
    (config_module : list (string * pyval))
    (id : nat) (a a' : flask_app) (h0 : heap) (self : Sitemap)
    (gs : list generator) :
  __init__ register_blueprint config_module id (Some a) h0 = (None, self, Some a') ->
  let self' := register_all self gs in
  url_generators self' = RoutesWithoutParams :: (Registered <$> gs) /\
  url_generators
    (register_all (__init__ register_blueprint config_module id None h0).1.2 gs)
    = RoutesWithoutParams :: (Registered <$> gs) /\
  (forall h ignore,
     ignore_set a' h = inr ignore ->
     _generate_all_urls url_for self' h =
       then_run
         (run_generator url_for ignore (url_kwargs a') "_routes_without_params"
            (_routes_without_params self') h)
         (run_generators url_for ignore (url_kwargs a') self' (Registered <$> gs))) /\
  (forall ignore kwargs gs1 gs2 h,
     run_generators url_for ignore kwargs self' (gs1 ++ gs2) h =
       then_run (run_generators url_for ignore kwargs self' gs1 h)
                (run_generators url_for ignore kwargs self' gs2)) /\
  (forall ignore kwargs name cs1 cs2 h,
     run_generator url_for ignore kwargs name (gen_of_list (cs1 ++ cs2)) h =
       then_run (run_generator url_for ignore kwargs name (gen_of_list cs1) h)
                (run_generator url_for ignore kwargs name (gen_of_list cs2))) /\
  (forall ignore kwargs (sgs : list (string * list string)) h,
     run_generators url_for ignore kwargs self' (string_generator <$> sgs) h
       = (loc_record <$> concat (sgs.*2), None, h)).
Proof.
  unfold __init__.
  destruct (init_app register_blueprint config_module _ a h0) as [[e s] a1] eqn:Hinit.
  intros [= -> -> ->]. set (self' := register_all self gs).
  apply init_app_self in Hinit as (Happ & Hgens & _). simpl in Hgens.
  destruct (register_all_fields gs self) as [Happ' Hgens'].
  fold self' in Happ', Hgens'. rewrite Hgens in Hgens'. simpl in Hgens'.
  split; [done|]. split; [|split; [|split; [|split]]].
  - exact (proj2 (register_all_fields gs _)).
  - intros h ignore Hig. unfold _generate_all_urls.
    rewrite Happ', Happ, Hig, Hgens'.
    change (RoutesWithoutParams :: (Registered <$> gs))
      with ([RoutesWithoutParams] ++ (Registered <$> gs)).
    rewrite run_generators_app. f_equal. apply run_generators_one.
  - intros. apply run_generators_app.
  - intros. apply run_generator_app.
  - intros. apply run_generators_strings.
Qed.

Lemma records_in_registration_order_witness :
  __init__ sample_register_blueprint sample_config_module 1 (Some sample_app) []
    = (None, sample_installed.1.2, Some sample_installed.2) /\
  url_generators (register_all sample_installed.1.2 [sample_pages; sample_news])
    = [RoutesWithoutParams; Registered sample_pages; Registered sample_news] /\
  (fun r : gmap string pyval => r !! "loc") <$>
    records (_generate_all_urls sample_url_for
               (register_all sample_installed.1.2 [sample_pages; sample_news])
               sample_heap)
    = (fun u => Some (VStr u)) <$>
        ["http://localhost/index"; "http://localhost/flask_sitemap.sitemap";
         "/about"; "/contact"; "http://localhost/news";
         "http://localhost/blog.post"; "/archive"].
Proof.
  assert (Hinit : __init__ sample_register_blueprint sample_config_module 1
                    (Some sample_app) []
                  = (None, sample_installed.1.2, Some sample_installed.2))
    by (vm_compute; reflexivity).
  split; [exact Hinit|].
  destruct (records_in_registration_order sample_url_for
              sample_register_blueprint sample_config_module 1 sample_app
              sample_installed.2 [] sample_installed.1.2
              [sample_pages; sample_news] Hinit)
    as (Hgens & _).
  split; [exact Hgens|]. vm_compute. reflexivity.
Defined.

(** ** The ignore set *)

(** C4.  A mapping or sequence candidate whose endpoint is in the configured
    ignore set comes to [continue]: no record, no call of [url_for] (the
    statement holds for every [url_for]), no update of the parameters, the
    store as it was.  The records of a generator are therefore those it
    would give without that candidate. *)
Theorem ignored_endpoint_skipped
    (url_for : pyval -> gmap string pyval -> exn + string)
    (a : flask_app) (h0 : heap) (ignore : list pyval)
    (kwargs : gmap string pyval) (name : string) (c ep values : pyval) :
  ignore_set a h0 = inr ignore ->
  candidate_endpoint name c = Some (ep, values) ->
  py_in ep ignore = true ->
  (forall h, process_generated url_for ignore kwargs name c h = (Skip, h)) /\
  (forall cs1 cs2 h,
     run_generator url_for ignore kwargs name (gen_of_list (cs1 ++ c :: cs2)) h
       = run_generator url_for ignore kwargs name (gen_of_list (cs1 ++ cs2)) h).
Proof.
  intros Hig Hc Hin.
  pose proof (ignore_set_hashable _ _ _ _ Hig Hin) as Hh.
  assert (Hskip : forall h, process_generated url_for ignore kwargs name c h = (Skip, h)).
  { intros h. destruct c as [| | | |l|[|x [|y xs]]|[|x [|y xs]]]; simpl in Hc; try done;
      injection Hc as <- <-.
    - simpl. by apply resolve_ignored.
    - rewrite (process_sequence _ _ _ name _ x y xs h); [|by left].
      by apply resolve_ignored.
    - rewrite (process_sequence _ _ _ name _ x y xs h); [|by right].
      by apply resolve_ignored. }
  split; [done|]. intros cs1 cs2 h.
  rewrite !run_generator_app. apply then_run_ext. intros h1.
  by rewrite run_generator_cons, Hskip.
Qed.

Lemma ignored_endpoint_skipped_witness :
  ignore_set sample_app sample_heap = inr [VStr "admin"] /\
  candidate_endpoint "pages" (VTuple [VStr "admin"; VDict 0; VStr "2024-01-01"])
    = Some (VStr "admin", VDict 0) /\
  py_in (VStr "admin") [VStr "admin"] = true /\
  process_generated sample_url_for [VStr "admin"] (url_kwargs sample_app) "pages"
    (VTuple [VStr "admin"; VDict 0; VStr "2024-01-01"]) sample_heap
    = (Skip, sample_heap).
Proof.
  split; [reflexivity|]. split; [reflexivity|]. split; [reflexivity|].
  destruct (ignored_endpoint_skipped sample_url_for sample_app sample_heap
              [VStr "admin"] (url_kwargs sample_app) "pages"
              (VTuple [VStr "admin"; VDict 0; VStr "2024-01-01"])
              (VStr "admin") (VDict 0) eq_refl eq_refl eq_refl)
    as (Hskip & _).
  apply Hskip.
Defined.

(** ** Every record has a [loc] *)

Lemma yields_only_impl (P Q : pyval -> Prop) (g : gen) :
  (forall c, P c -> Q c) -> yields_only P g -> yields_only Q g.
Proof.
  intros HPQ.
  induction g as [next IH| | |c h1 k IH] using gen_pull_ind
    with (P0 := fun p => match p with
                         | Yield _ _ k => yields_only P k -> yields_only Q k
                         | _ => True
                         end); try done.
  simpl. intros Hy h. specialize (IH h). specialize (Hy h).
  destruct (next h); [done..|]. destruct Hy. auto.
Qed.

Lemma yields_only_True (g : gen) : yields_only (fun _ => True) g.
Proof.
  induction g as [next IH| | |c h1 k IH] using gen_pull_ind
    with (P0 := fun p => match p with
                         | Yield _ _ k => yields_only (fun _ => True) k
                         | _ => True
                         end); try done.
  simpl. intros h. specialize (IH h). by destruct (next h).
Qed.

Lemma iter_rules_yields (rules : list rule) :
  yields_only (fun c => c ≠ VStr "") (iter_rules rules).
Proof.
  induction rules as [|r rules IH]; simpl; intros h; [done|].
  destruct (rule_without_params r); [done|].
  destruct (iter_rules rules) as [next]. simpl in *. apply IH.
Qed.

Lemma routes_without_params_yields (self : Sitemap) :
  yields_only (fun c => c ≠ VStr "") (_routes_without_params self).
Proof.
  simpl. intros h. destruct (app self) as [a|]; [|done].
  destruct (config a !! _) as [v|]; [|done].
  destruct (truthy h v); [|done].
  pose proof (iter_rules_yields (url_map a)) as Hy.
  destruct (iter_rules (url_map a)) as [next]. simpl in *. apply Hy.
Qed.

Section RecordFacts.

Variable url_for : pyval -> gmap string pyval -> exn + string.
Variables (ignore : list pyval) (kwargs : gmap string pyval).

Lemma resolve_emit (ep values : pyval) (result r : gmap string pyval) (h h' : heap) :
  resolve url_for ignore kwargs ep values result h = (Emit r, h') ->
  exists d u, url_for ep d = inr u /\ r = <["loc" := VStr u]> result.
Proof.
  unfold resolve. repeat case_match; try done.
  intros [= <- _]. eauto.
Qed.

(** The [loc] of a record is the string candidate it came from or a URL
    that [url_for] returned. *)
Lemma process_generated_emit (name : string) (c : pyval) (r : gmap string pyval) (h h' : heap) :
  process_generated url_for ignore kwargs name c h = (Emit r, h') ->
  exists u, r !! "loc" = Some (VStr u) /\
            (c = VStr u \/ exists ep d, url_for ep d = inr u).
Proof.
  destruct c as [| | |s|l|[|x [|y xs]]|[|x [|y xs]]]; simpl; try done.
  - intros [= <- _]. exists s. by rewrite lookup_insert_eq; auto.
  - intros (d & u & Hu & ->)%resolve_emit. exists u.
    rewrite lookup_insert_eq. eauto.
  - intros (d & u & Hu & ->)%resolve_emit. exists u.
    rewrite lookup_insert_eq. eauto.
  - intros (d & u & Hu & ->)%resolve_emit. exists u.
    rewrite lookup_insert_eq. eauto.
Qed.

Lemma run_generator_Forall (P : gmap string pyval -> Prop) (Q : pyval -> Prop)
    (name : string) :
  (forall c r h h', Q c ->
     process_generated url_for ignore kwargs name c h = (Emit r, h') -> P r) ->
  forall g, yields_only Q g ->
  forall h, Forall P (records (run_generator url_for ignore kwargs name g h)).
Proof.
  intros HP g.
  induction g as [next IH| | |c h1 k IH] using gen_pull_ind
    with (P0 := fun p =>
            match p with
            | Yield _ _ k =>
                yields_only Q k ->
                forall h, Forall P (records (run_generator url_for ignore kwargs name k h))
            | _ => True
            end); try done.
  intros Hy h. specialize (IH h). specialize (Hy h).
  cbn [run_generator]. destruct (next h) as [|e|c h1 k]; [by constructor..|].
  destruct Hy as [HQ Hk]. specialize (IH Hk).
  destruct (process_generated url_for ignore kwargs name c h1) as [[r| |e] h2] eqn:Hp.
  - specialize (IH h2).
    destruct (run_generator url_for ignore kwargs name k h2) as [[rs e] h3].
    unfold records in *. simpl in *. constructor; [|done]. by eapply HP.
  - apply IH.
  - by constructor.
Qed.

Lemma run_generators_Forall (P : gmap string pyval -> Prop) (Q : pyval -> Prop)
    (self : Sitemap) (gs : list url_generator) :
  (forall name c r h h', Q c ->
     process_generated url_for ignore kwargs name c h = (Emit r, h') -> P r) ->
  (forall g, g ∈ gs -> yields_only Q (gen_call (generator_of self g))) ->
  forall h, Forall P (records (run_generators url_for ignore kwargs self gs h)).
Proof.
  intros HP. induction gs as [|g gs IH]; intros Hgs h; [by constructor|].
  cbn [run_generators].
  pose proof (run_generator_Forall P Q (gen_name (generator_of self g))
                (HP _) _ (Hgs g ltac:(left)) h) as H1.
  destruct (run_generator _ _ _ _ _ _) as [[rs [e|]] h1]; [done|].
  specialize (IH (fun g' Hg' => Hgs g' ltac:(by right)) h1).
  destruct (run_generators url_for ignore kwargs self gs h1) as [[rs' e'] h2].
  unfold records in *. simpl in *. by apply Forall_app.
Qed.

End RecordFacts.

(** C6, as stated, fails: a generator that yields the empty string gets the
    record [{loc: ''}], whose [loc] is empty. *)
Lemma empty_string_candidate_empty_loc :
  ~ (forall (url_for : pyval -> gmap string pyval -> exn + string)
            (self : Sitemap) (h : heap) (r : gmap string pyval),
       r ∈ records (_generate_all_urls url_for self h) -> nonempty_loc r).
Proof.
  intros H.
  destruct (H sample_url_for
              (sample_sitemap [{| gen_name := "pages"; gen_call := gen_of_list [VStr ""] |}])
              [] {["loc" := VStr ""]}) as (u & Hu & Hne).
  - vm_compute. right. left.
  - rewrite lookup_singleton_eq in Hu. by injection Hu as <-.
Qed.

(** C6, amended.  Every record that [_generate_all_urls] yields has a [loc],
    and it is a string: the string candidate itself or what [url_for]
    returned.  It is non-empty when [url_for] returns no empty URL and no
    registered generator yields the empty string. *)
Theorem emitted_records_have_loc
    (url_for : pyval -> gmap string pyval -> exn + string)
    (self : Sitemap) (h : heap) (r : gmap string pyval) :
  r ∈ records (_generate_all_urls url_for self h) ->
  (exists u, r !! "loc" = Some (VStr u)) /\
  ((forall ep d u, url_for ep d = inr u -> u ≠ "") ->
   (forall g, Registered g ∈ url_generators self ->
              yields_only (fun c => c ≠ VStr "") (gen_call g)) ->
   nonempty_loc r).
Proof.
  unfold _generate_all_urls.
  destruct (app self) as [a|]; [|by intros ?%elem_of_nil].
  destruct (ignore_set a h) as [e|ignore]; [by intros ?%elem_of_nil|].
  intros Hr. split.
  - revert r Hr. apply Forall_forall.
    apply (run_generators_Forall _ _ _ _ (fun _ => True)).
    + intros name c r h1 h2 _ (u & Hu & _)%process_generated_emit. eauto.
    + intros. apply yields_only_True.
  - intros Hurl Hgens. revert r Hr. apply Forall_forall.
    apply (run_generators_Forall _ _ _ _ (fun c => c ≠ VStr "")).
    + intros name c r h1 h2 Hc (u & Hu & Hfrom)%process_generated_emit.
      exists u. split; [done|]. intros ->.
      destruct Hfrom as [-> | (ep & d & Hd)]; [done|]. by eapply Hurl.
    + intros [|g] Hg; [apply routes_without_params_yields|]. by apply Hgens.
Qed.

Lemma emitted_records_have_loc_witness :
  ({["loc" := VStr "/about"]} : gmap string pyval)
    ∈ records (_generate_all_urls sample_url_for (sample_sitemap [sample_pages])
                 sample_heap) /\
  exists u,
    ({["loc" := VStr "/about"]} : gmap string pyval) !! "loc" = Some (VStr u).
Proof.
  assert (Hin : ({["loc" := VStr "/about"]} : gmap string pyval)
                  ∈ records (_generate_all_urls sample_url_for
                               (sample_sitemap [sample_pages]) sample_heap)).
  { vm_compute. apply list_elem_of_further, list_elem_of_here. }
  split; [exact Hin|].
  exact (proj1 (emitted_records_have_loc sample_url_for
                  (sample_sitemap [sample_pages]) sample_heap _ Hin)).
Defined.

(** ** The routes-without-params generator *)






(** ** Initialisation *)



(** ** Candidates of the wrong shape *)




(** ** The update of the caller's mapping *)

(** C10, as stated, fails twice.  A mapping yielded by a generator whose
    name is in the ignore set is skipped before [values.update(kwargs)], so
    the mapping object never receives the keyword arguments.  And a mapping
    that already binds [_external] and [_scheme] to the fixed values is
    updated to itself, so it is left as it was. *)
Lemma mapping_left_unchanged :
  ~ (forall (url_for : pyval -> gmap string pyval -> exn + string)
            (a : flask_app) (ignore : list pyval) (name : string)
            (l : nat) (d : gmap string pyval) (h : heap),
       ignore_set a h = inr ignore ->
       h !! l = Some d ->
       (process_generated url_for ignore (url_kwargs a) name (VDict l) h).2 !! l
         = Some (url_kwargs a ∪ d)) /\
  ~ (forall (url_for : pyval -> gmap string pyval -> exn + string)
            (a : flask_app) (ignore : list pyval) (name : string)
            (c ep : pyval) (l : nat) (d : gmap string pyval) (h : heap),
       ignore_set a h = inr ignore ->
       candidate_endpoint name c = Some (ep, VDict l) ->
       hashable ep = true ->
       py_in ep ignore = false ->
       h !! l = Some d ->
       (process_generated url_for ignore (url_kwargs a) name c h).2 !! l ≠ Some d).
Proof.
  split.
  - intros H.
    specialize (H sample_url_for sample_app [VStr "admin"] "admin" 0%nat ∅ [∅]
                  eq_refl eq_refl).
    vm_compute in H. discriminate H.
  - intros H.
    by apply (H sample_url_for sample_app [VStr "admin"] "news"
                (VDict 0) (VStr "news") 0%nat (url_kwargs sample_app)
                [url_kwargs sample_app]).
Qed.

(** C10, amended.  For a mapping candidate, and for a list or tuple
    candidate whose second element is a mapping, whose endpoint is hashable
    and not in the ignore set, the mapping object itself is updated with the
    keyword arguments before [url_for] is called and whatever [url_for] then
    does: afterwards the object binds [_external] to [True] and [_scheme] to
    the configured scheme and keeps its other entries, [url_for] has been
    given the updated mapping, and every other object of the store is as it
    was.  The object differs from what it was unless it already had both
    bindings. *)
Theorem values_updated_in_place
    (url_for : pyval -> gmap string pyval -> exn + string)
    (a : flask_app) (ignore : list pyval) (name : string)
    (c ep : pyval) (l : nat) (d : gmap string pyval) (h : heap) :
  candidate_endpoint name c = Some (ep, VDict l) ->
  hashable ep = true ->
  py_in ep ignore = false ->
  h !! l = Some d ->
  let d' := url_kwargs a ∪ d in
  let run := process_generated url_for ignore (url_kwargs a) name c h in
  run.2 = <[l := d']> h /\
  run.2 !! l = Some d' /\
  (forall l', l' ≠ l -> run.2 !! l' = h !! l') /\
  d' !! "_external" = Some (VBool true) /\
  d' !! "_scheme" = Some (config_get (config a) "SITEMAP_URL_SCHEME") /\
  (forall k, k ≠ "_external" -> k ≠ "_scheme" -> d' !! k = d !! k) /\
  (d' = d <-> d !! "_external" = Some (VBool true) /\
              d !! "_scheme" = Some (config_get (config a) "SITEMAP_URL_SCHEME")) /\
  (forall e, url_for ep d' = inl e -> run.1 = Fail e) /\
  (forall u, url_for ep d' = inr u ->
             exists r, run.1 = Emit r /\ r !! "loc" = Some (VStr u)).
Proof.
  intros Hc Hh Hin Hl d' run.
  assert (Hrun : exists result,
             run = (match url_for ep d' with
                    | inl e => Fail e
                    | inr u => Emit (<["loc" := VStr u]> result)
                    end, <[l := d']> h)).
  { unfold run.
    destruct c as [| | | |l0|[|x [|y xs]]|[|x [|y xs]]]; simplify_eq/=.
    all: eexists; by apply resolve_live. }
  destruct Hrun as [result ->]. simpl.
  assert (Hext : d' !! "_external" = Some (VBool true)).
  { unfold d', url_kwargs. apply lookup_union_Some_l. by simplify_map_eq. }
  assert (Hsch : d' !! "_scheme" = Some (config_get (config a) "SITEMAP_URL_SCHEME")).
  { unfold d', url_kwargs. apply lookup_union_Some_l. by simplify_map_eq. }
  split; [done|]. split.
  { apply list_lookup_insert_eq. by eapply lookup_lt_Some. }
  split.
  { intros l' Hne. by apply list_lookup_insert_ne. }
  split; [done|]. split; [done|]. split.
  { intros k Hk1 Hk2. unfold d', url_kwargs. apply lookup_union_r.
    by simplify_map_eq. }
  split.
  { split.
    - intros Heq. by rewrite <- Heq.
    - intros [He Hs]. apply map_eq. intros k.
      destruct (decide (k = "_external")) as [->|Hk1]; [by rewrite Hext, He|].
      destruct (decide (k = "_scheme")) as [->|Hk2]; [by rewrite Hsch, Hs|].
      unfold d', url_kwargs. apply lookup_union_r. by simplify_map_eq. }
  split.
  - by intros e ->.
  - intros u ->. eexists. split; [done|]. apply lookup_insert_eq.
Qed.

Lemma values_updated_in_place_witness :
  candidate_endpoint "news" sample_post = Some (VStr "blog.post", VDict 0) /\
  hashable (VStr "blog.post") = true /\
  py_in (VStr "blog.post") [VStr "admin"] = false /\
  sample_heap !! 0%nat = Some {["slug" := VStr "x"]} /\
  (process_generated sample_url_for [VStr "admin"] (url_kwargs sample_app)
     "news" sample_post sample_heap).2
    = [url_kwargs sample_app ∪ {["slug" := VStr "x"]}].
Proof.
  split; [reflexivity|]. split; [reflexivity|]. split; [reflexivity|].
  split; [reflexivity|].
  destruct (values_updated_in_place sample_url_for sample_app [VStr "admin"]
              "news" sample_post (VStr "blog.post") 0 {["slug" := VStr "x"]}
              sample_heap eq_refl eq_refl eq_refl eq_refl)
    as (Hstore & _).
  rewrite Hstore. reflexivity.
Defined.


(** * Further properties of the extension *)

(** ** The default configuration *)

Lemma setdefault_union (k : string) (v : pyval) (c m : gmap string pyval) :
  setdefault k v c ∪ m = c ∪ <[k := v]> m.
Proof.
  unfold setdefault. destruct (c !! k) as [w|] eqn:Hk.
  - apply map_eq. intros i. rewrite !lookup_union.
    destruct (decide (i = k)) as [->|Hne].
    + rewrite Hk, lookup_insert_eq. by destruct (m !! k).
    + by rewrite lookup_insert_ne by congruence.
  - rewrite <- insert_union_l. by apply insert_union_r.
Qed.

(** X1.  The loop of lines 66-68 leaves the configuration as the
    application had it, extended, for the keys it lacked, by the attributes
    of the [config] module whose name starts with [SITEMAP_].  So a setting
    of the application is never overridden, and no other attribute of the
    module is copied. *)
Theorem default_configuration_union
    (config_module : list (string * pyval)) (c : gmap string pyval) :
  set_default_configuration config_module c
    = c ∪ list_to_map
            (List.filter (fun kv => String.prefix "SITEMAP_" kv.1) config_module) /\
  (forall k v, c !! k = Some v ->
     set_default_configuration config_module c !! k = Some v) /\
  (forall k, c !! k = None -> String.prefix "SITEMAP_" k = false ->
     set_default_configuration config_module c !! k = None).
Proof.
  assert (Heq : forall cm c0,
             set_default_configuration cm c0
             = c0 ∪ list_to_map
                      (List.filter (fun kv => String.prefix "SITEMAP_" kv.1) cm)).
  { unfold set_default_configuration.
    induction cm as [|[k v] cm IH]; intros c0; simpl.
    - by rewrite (right_id_L ∅ (∪)).
    - destruct (String.prefix "SITEMAP_" k); simpl; rewrite IH; [|done].
      apply setdefault_union. }
  split; [apply Heq|]. split.
  - intros k v Hk. rewrite Heq. by apply lookup_union_Some_l.
  - intros k Hk Hp. rewrite Heq. apply lookup_union_None. split; [done|].
    apply not_elem_of_list_to_map_1. intros Hin.
    apply list_elem_of_fmap in Hin as ([k' v'] & -> & Hin).
    apply list_elem_of_In, filter_In in Hin as [_ Hp']. simpl in *. congruence.
Qed.

Lemma default_configuration_union_witness :
  (<["SITEMAP_URL_SCHEME" := VStr "https"]> ∅ : gmap string pyval)
    !! "SITEMAP_URL_SCHEME" = Some (VStr "https") /\
  set_default_configuration
    (("SITEMAP_URL_SCHEME", VNone) :: sample_config_module)
    (<["SITEMAP_URL_SCHEME" := VStr "https"]> ∅) !! "SITEMAP_URL_SCHEME"
    = Some (VStr "https").
Proof.
  split; [reflexivity|].
  destruct (default_configuration_union
              (("SITEMAP_URL_SCHEME", VNone) :: sample_config_module)
              (<["SITEMAP_URL_SCHEME" := VStr "https"]> ∅)) as (_ & Hkeep & _).
  apply Hkeep. reflexivity.
Defined.

(** ** Initialising twice, and registering before initialising *)

(** X2.  Whatever a call of [init_app] did, it leaves the application with a
    [sitemap] entry, so every later [init_app] on that application, by the
    same or another extension object, raises the already-initialized error
    and leaves the application as it is.  That includes the case in which
    the first call stopped at a blueprint registration that raised. *)
Theorem init_app_again_raises
    (register_blueprint : blueprint -> pyval -> flask_app -> exn + list rule)
    (config_module : list (string * pyval))
    (self other : Sitemap) (a : flask_app) (h h' : heap) :
  let a1 := (init_app register_blueprint config_module self a h).2 in
  (exists exts, extensions a1 = Some exts /\ is_Some (exts !! "sitemap")) /\
  (init_app register_blueprint config_module other a1 h').1.1
    = Some already_initialized /\
  (init_app register_blueprint config_module other a1 h').2 = a1.
Proof.
  intros a1.
  assert (Hent : exists exts, extensions a1 = Some exts /\ is_Some (exts !! "sitemap")).
  { unfold a1, init_app.
    destruct (bool_decide (is_Some (default ∅ (extensions a) !! "sitemap"))) eqn:Hg.
    - apply bool_decide_eq_true in Hg. simpl. eauto.
    - cbn zeta. repeat case_match; simpl; eexists; (split; [done|]);
        rewrite lookup_insert_eq; by eexists. }
  split; [exact Hent|]. destruct Hent as (exts & Hexts & Hsome).
  unfold init_app. rewrite Hexts. simpl.
  rewrite bool_decide_eq_true_2 by done. simpl.
  split; [done|]. destruct a1 as [ex cfg rules]. simpl in *. by subst ex.
Qed.

Lemma register_all_eq (gs : list generator) (self : Sitemap) :
  register_all self gs
    = {| sm_id := sm_id self; app := app self;
         url_generators := url_generators self ++ (Registered <$> gs);
         sm_blueprint := sm_blueprint self |}.
Proof.
  revert self. induction gs as [|g gs IH]; intros self.
  - simpl. rewrite app_nil_r. by destruct self.
  - change (register_all self (g :: gs))
      with (register_all (register_generator self g).1 gs).
    rewrite IH. simpl. by rewrite <- app_assoc.
Qed.

(** X3.  [register_generator] hands back the function it was given, so it
    works as a decorator, and registering [gs] one after the other only
    appends them, in that order and without removing duplicates, to the
    generators the object had; its application, identity and blueprint are
    untouched. *)
Theorem register_generator_appends (self : Sitemap) (g : generator)
    (gs : list generator) :
  (register_generator self g).2 = g /\
  register_all self gs
    = {| sm_id := sm_id self; app := app self;
         url_generators := url_generators self ++ (Registered <$> gs);
         sm_blueprint := sm_blueprint self |} /\
  length (url_generators (register_all self (g :: g :: gs)))
    = S (S (length (url_generators self) + length gs)).
Proof.
  split; [done|]. split; [apply register_all_eq|].
  rewrite register_all_eq. simpl.
  rewrite length_app, length_cons, length_cons, length_fmap. lia.
Qed.

(** X4.  [init_app] does not look at the registered generators and keeps
    them: registering generators on [Sitemap()] before [init_app] (the
    factory pattern) gives the same extension object and application as
    registering them after it. *)
Theorem init_app_keeps_generators
    (register_blueprint : blueprint -> pyval -> flask_app -> exn + list rule)
    (config_module : list (string * pyval))
    (self : Sitemap) (gs : list generator) (a : flask_app) (h : heap) :
  init_app register_blueprint config_module (register_all self gs) a h
    = (let '(e, self', a') := init_app register_blueprint config_module self a h in
       (e, register_all self' gs, a')) /\
  url_generators
    (init_app register_blueprint config_module (register_all self gs) a h).1.2
    = url_generators self ++ (Registered <$> gs).
Proof.
  assert (Hcomm :
    init_app register_blueprint config_module (register_all self gs) a h
    = (let '(e, self', a') := init_app register_blueprint config_module self a h in
       (e, register_all self' gs, a'))).
  { rewrite (register_all_eq gs self). unfold init_app. simpl.
    repeat case_match; simplify_eq/=; by rewrite register_all_eq. }
  split; [exact Hcomm|]. rewrite Hcomm.
  destruct (init_app register_blueprint config_module self a h) as [[e s] a'] eqn:Hi.
  apply init_app_self in Hi as (_ & Hg & _). simpl.
  by rewrite register_all_eq, Hg.
Qed.



(** ** What the loop body does to the store *)

Section BodyFacts.

Variable url_for : pyval -> gmap string pyval -> exn + string.
Variables (ignore : list pyval) (kwargs : gmap string pyval).

Lemma resolve_store (ep values : pyval) (result : gmap string pyval) (h : heap) :
  (resolve url_for ignore kwargs ep values result h).2 = h \/
  exists l d, values = VDict l /\ h !! l = Some d /\
    (resolve url_for ignore kwargs ep values result h).2 = <[l := kwargs ∪ d]> h.
Proof.
  unfold resolve. repeat case_match; simplify_eq/=; eauto 10.
Qed.

Lemma process_generated_store (name : string) (c : pyval) (h : heap) :
  (process_generated url_for ignore kwargs name c h).2 = h \/
  exists ep l d, candidate_endpoint name c = Some (ep, VDict l) /\
    h !! l = Some d /\
    (process_generated url_for ignore kwargs name c h).2 = <[l := kwargs ∪ d]> h.
Proof.
  destruct c as [| | |s|l|[|x [|y xs]]|[|x [|y xs]]]; simpl; auto.
  - destruct (resolve_store (VStr name) (VDict l) ∅ h)
      as [?|(l' & d & [= <-] & ? & ?)]; [auto|right; eauto 10].
  - destruct (resolve_store x y (assign_optional optional_keys xs ∅) h)
      as [?|(l' & d & -> & ? & ?)]; [auto|right; eauto 10].
  - destruct (resolve_store x y (assign_optional optional_keys xs ∅) h)
      as [?|(l' & d & -> & ? & ?)]; [auto|right; eauto 10].
Qed.

Lemma resolve_again (ep values : pyval) (result : gmap string pyval) (h : heap) :
  resolve url_for ignore kwargs ep values result
    (resolve url_for ignore kwargs ep values result h).2
  = resolve url_for ignore kwargs ep values result h.
Proof.
  unfold resolve.
  destruct (negb (hashable ep)); [done|].
  destruct (py_in ep ignore); [done|].
  destruct values as [| | | |l| |]; try done.
  destruct (h !! l) as [d|] eqn:Hl; simpl; [|by rewrite Hl].
  assert (Hl' : (<[l := kwargs ∪ d]> h) !! l = Some (kwargs ∪ d)).
  { apply list_lookup_insert_eq. by eapply lookup_lt_Some. }
  assert (Hd : kwargs ∪ (kwargs ∪ d) = kwargs ∪ d).
  { by rewrite (assoc_L (∪)), (idemp_L (∪)). }
  destruct (url_for ep (kwargs ∪ d)) as [e|u] eqn:Hu; simpl;
    rewrite Hl', Hd, Hu, list_insert_insert_eq; done.
Qed.

End BodyFacts.

(** X6.  Handling a candidate never adds or removes an object of the store,
    and the only object it can change is the mapping the candidate carries:
    every other dictionary is as it was. *)
Theorem process_generated_frame
    (url_for : pyval -> gmap string pyval -> exn + string)
    (ignore : list pyval) (kwargs : gmap string pyval)
    (name : string) (c : pyval) (h : heap) :
  let h' := (process_generated url_for ignore kwargs name c h).2 in
  length h' = length h /\
  (forall l, h' !! l ≠ h !! l ->
     exists ep, candidate_endpoint name c = Some (ep, VDict l)).
Proof.
  intros h'. unfold h'.
  destruct (process_generated_store url_for ignore kwargs name c h)
    as [->|(ep & l & d & Hc & Hl & ->)].
  - split; [done|]. by intros l [].
  - split; [apply length_insert|]. intros l' Hne.
    destruct (decide (l' = l)) as [->|Hl']; [eauto|].
    by rewrite list_lookup_insert_ne in Hne.
Qed.

Lemma process_generated_frame_witness :
  ([url_kwargs sample_app ∪ {["slug" := VStr "x"]}] : heap) !! 0%nat
    ≠ sample_heap !! 0%nat /\
  exists ep, candidate_endpoint "news" sample_post = Some (ep, VDict 0).
Proof.
  assert (Hne : (process_generated sample_url_for [] (url_kwargs sample_app)
                   "news" sample_post sample_heap).2 !! 0%nat
                ≠ sample_heap !! 0%nat)
    by (vm_compute; discriminate).
  split; [exact Hne|].
  exact (proj2 (process_generated_frame sample_url_for [] (url_kwargs sample_app)
                  "news" sample_post sample_heap) 0%nat Hne).
Defined.

(** X7.  Handling the same candidate a second time, in the store the first
    time left, gives the same outcome and leaves that store as it is: the
    update with the keyword arguments is idempotent.  A generator may thus
    yield one dictionary object several times. *)
Theorem process_generated_idempotent
    (url_for : pyval -> gmap string pyval -> exn + string)
    (ignore : list pyval) (kwargs : gmap string pyval)
    (name : string) (c : pyval) (h : heap) :
  process_generated url_for ignore kwargs name c
    (process_generated url_for ignore kwargs name c h).2
  = process_generated url_for ignore kwargs name c h.
Proof.
  destruct c as [| | |s|l|[|x [|y xs]]|[|x [|y xs]]]; simpl; try done;
    apply resolve_again.
Qed.

(** X8.  A list is handled as the tuple of the same elements is, and of a
    sequence only the first five elements count: what follows the fifth is
    dropped without an error. *)
Theorem sequence_candidates
    (url_for : pyval -> gmap string pyval -> exn + string)
    (ignore : list pyval) (kwargs : gmap string pyval)
    (name : string) (ep values : pyval) (xs : list pyval) (h : heap) :
  process_generated url_for ignore kwargs name (VList xs) h
    = process_generated url_for ignore kwargs name (VTuple xs) h /\
  process_generated url_for ignore kwargs name (VTuple (ep :: values :: xs)) h
    = process_generated url_for ignore kwargs name
        (VTuple (ep :: values :: take 3 xs)) h.
Proof.
  split; [done|]. simpl. f_equal.
  by destruct xs as [|x1 [|x2 [|x3 [|x4 xs]]]].
Qed.

(** ** Errors of the endpoint path *)

(** X9.  The checks of the endpoint path come in a fixed order.  An endpoint
    that cannot be hashed (a list, a dictionary) raises the [TypeError] of
    [endpoint in ignore], even with an empty ignore set.  Otherwise, when
    the endpoint is not ignored, parameters that are not a dictionary raise
    the [AttributeError] of [values.update].  In both cases [url_for] is not
    called and the store is untouched. *)
Theorem endpoint_path_errors
    (url_for : pyval -> gmap string pyval -> exn + string)
    (ignore : list pyval) (kwargs : gmap string pyval)
    (name : string) (c ep values : pyval) (h : heap) :
  candidate_endpoint name c = Some (ep, values) ->
  (hashable ep = false ->
     process_generated url_for ignore kwargs name c h = (Fail unhashable, h)) /\
  (hashable ep = true -> py_in ep ignore = false ->
   (forall l, values ≠ VDict l) ->
     process_generated url_for ignore kwargs name c h
       = (Fail (AttributeError "update"), h)).
Proof.
  intros Hc.
  assert (Hp : exists result,
             process_generated url_for ignore kwargs name c h
             = resolve url_for ignore kwargs ep values result h).
  { destruct c as [| | | |l|[|x [|y xs]]|[|x [|y xs]]]; simplify_eq/=; eauto. }
  destruct Hp as [result ->]. unfold resolve. split.
  - by intros ->.
  - intros -> -> Hv. simpl. destruct values; try done. by destruct (Hv l).
Qed.

Lemma endpoint_path_errors_witness :
  candidate_endpoint "news" (VTuple [VList []; VDict 0])
    = Some (VList [], VDict 0) /\
  hashable (VList []) = false /\
  process_generated sample_url_for [] (url_kwargs sample_app) "news"
    (VTuple [VList []; VDict 0]) sample_heap
    = (Fail unhashable, sample_heap).
Proof.
  split; [reflexivity|]. split; [reflexivity|].
  exact (proj1 (endpoint_path_errors sample_url_for [] (url_kwargs sample_app)
                  "news" (VTuple [VList []; VDict 0]) (VList []) (VDict 0)
                  sample_heap eq_refl) eq_refl).
Defined.

(** ** Shape and number of the records *)

Lemma process_generated_keys
    (url_for : pyval -> gmap string pyval -> exn + string)
    (ignore : list pyval) (kwargs : gmap string pyval)
    (name : string) (c : pyval) (r : gmap string pyval) (h h' : heap) :
  process_generated url_for ignore kwargs name c h = (Emit r, h') ->
  forall k, k ≠ "loc" -> k ≠ "lastmod" -> k ≠ "changefreq" -> k ≠ "priority" ->
            r !! k = None.
Proof.
  intros Hp k Hk1 Hk2 Hk3 Hk4.
  destruct c as [| | |s|l|[|x [|y xs]]|[|x [|y xs]]]; simpl in Hp; try done.
  - injection Hp as <- _. by rewrite lookup_insert_ne.
  - apply resolve_emit in Hp as (d & u & _ & ->). by rewrite lookup_insert_ne.
  - apply resolve_emit in Hp as (d & u & _ & ->). rewrite lookup_insert_ne by done.
    by apply (assign_optional_lookup xs).
  - apply resolve_emit in Hp as (d & u & _ & ->). rewrite lookup_insert_ne by done.
    by apply (assign_optional_lookup xs).
Qed.

(** X10.  A record that [_generate_all_urls] yields has no key besides
    [loc], [lastmod], [changefreq] and [priority], whatever the generators
    are and whatever they yield. *)
Theorem record_keys_bounded
    (url_for : pyval -> gmap string pyval -> exn + string)
    (self : Sitemap) (h : heap) (r : gmap string pyval) (k : string) :
  r ∈ records (_generate_all_urls url_for self h) ->
  k ≠ "loc" -> k ≠ "lastmod" -> k ≠ "changefreq" -> k ≠ "priority" ->
  r !! k = None.
Proof.
  unfold _generate_all_urls.
  destruct (app self) as [a|]; [|by intros ?%elem_of_nil].
  destruct (ignore_set a h) as [e|ignore]; [by intros ?%elem_of_nil|].
  intros Hr Hk1 Hk2 Hk3 Hk4. revert r Hr. apply Forall_forall.
  apply (run_generators_Forall _ _ _ _ (fun _ => True)).
  - intros name c r h1 h2 _ Hp. by eapply process_generated_keys.
  - intros. apply yields_only_True.
Qed.

Lemma record_keys_bounded_witness :
  ({["loc" := VStr "/about"]} : gmap string pyval)
    ∈ records (_generate_all_urls sample_url_for (sample_sitemap [sample_pages])
                 sample_heap) /\
  ({["loc" := VStr "/about"]} : gmap string pyval) !! "images" = None.
Proof.
  assert (Hin : ({["loc" := VStr "/about"]} : gmap string pyval)
                  ∈ records (_generate_all_urls sample_url_for
                               (sample_sitemap [sample_pages]) sample_heap)).
  { vm_compute. apply list_elem_of_further, list_elem_of_here. }
  split; [exact Hin|].
  apply (record_keys_bounded sample_url_for (sample_sitemap [sample_pages])
           sample_heap _ "images" Hin); discriminate.
Defined.

(** X11.  A generator gets at most one record per candidate, and exactly one
    per candidate when it yields strings only. *)
Theorem one_record_per_candidate
    (url_for : pyval -> gmap string pyval -> exn + string)
    (ignore : list pyval) (kwargs : gmap string pyval)
    (name : string) (cs : list pyval) (ss : list string) (h : heap) :
  length (records (run_generator url_for ignore kwargs name (gen_of_list cs) h))
    <= length cs /\
  length (records (run_generator url_for ignore kwargs name
                     (gen_of_list (VStr <$> ss)) h))
    = length ss.
Proof.
  split.
  - revert h. induction cs as [|c cs IH]; intros h; [done|].
    rewrite run_generator_cons.
    destruct (process_generated url_for ignore kwargs name c h) as [[r| |e] h2].
    + specialize (IH h2).
      destruct (run_generator url_for ignore kwargs name (gen_of_list cs) h2)
        as [[rs e] h3]. unfold records in *. simpl in *. lia.
    + specialize (IH h2). simpl. lia.
    + unfold records. simpl. lia.
  - rewrite run_generator_strings. unfold records. simpl. apply length_fmap.
Qed.

(** ** The configured ignore set *)

Lemma resolve_not_skip_nil
    (url_for : pyval -> gmap string pyval -> exn + string)
    (kwargs : gmap string pyval) (ep values : pyval)
    (result : gmap string pyval) (h : heap) :
  (resolve url_for [] kwargs ep values result h).1 ≠ Skip.
Proof. unfold resolve. by repeat case_match. Qed.

(** X12.  When [SITEMAP_IGNORE_ENDPOINTS] is [None], empty or any other
    false value, the ignore set is empty, and then no candidate is skipped:
    each one gets a record or raises. *)
Theorem falsy_ignore_skips_nothing
    (url_for : pyval -> gmap string pyval -> exn + string)
    (a : flask_app) (v : pyval) (h : heap) :
  config a !! "SITEMAP_IGNORE_ENDPOINTS" = Some v ->
  truthy h v = false ->
  ignore_set a h = inr [] /\
  (forall kwargs name c h',
     (process_generated url_for [] kwargs name c h').1 ≠ Skip).
Proof.
  intros Hv Ht. split.
  - unfold ignore_set. by rewrite Hv, Ht.
  - intros kwargs name c h'.
    destruct c as [| | |s|l|[|x [|y xs]]|[|x [|y xs]]]; simpl; try done;
      apply resolve_not_skip_nil.
Qed.

Lemma falsy_ignore_skips_nothing_witness :
  (<["SITEMAP_IGNORE_ENDPOINTS" := VNone]> ∅ : gmap string pyval)
    !! "SITEMAP_IGNORE_ENDPOINTS" = Some VNone /\
  truthy [] VNone = false /\
  ignore_set {| extensions := None;
                config := <["SITEMAP_IGNORE_ENDPOINTS" := VNone]> ∅;
                url_map := [] |} [] = inr [].
Proof.
  split; [reflexivity|]. split; [reflexivity|].
  exact (proj1 (falsy_ignore_skips_nothing sample_url_for
                  {| extensions := None;
                     config := <["SITEMAP_IGNORE_ENDPOINTS" := VNone]> ∅;
                     url_map := [] |} VNone [] eq_refl eq_refl)).
Defined.

Lemma py_in_characters (e : string) (cs : list Ascii.ascii) :
  py_in (VStr e) ((fun c => VStr (String c "")) <$> cs) = true
  <-> exists c, e = String c "" /\ c ∈ cs.
Proof.
  unfold py_in. induction cs as [|c cs IH]; simpl.
  - split; [done|]. by intros (c & _ & ?%elem_of_nil).
  - rewrite orb_true_iff, IH, String.eqb_eq. split.
    + intros [->|(c' & -> & Hin)]; eexists; (split; [done|]);
        [apply list_elem_of_here|by apply list_elem_of_further].
    + intros (c' & -> & Hin). apply elem_of_cons in Hin as [->|Hin]; eauto.
Qed.

(** X13.  When [SITEMAP_IGNORE_ENDPOINTS] is a single string rather than a
    list of names, [set(...)] makes the set of its characters: the endpoints
    ignored are then the one-character names that occur in the string, and
    an endpoint of two or more characters, the configured string itself
    included, is not ignored. *)
Theorem string_ignore_is_character_set
    (a : flask_app) (s : string) (h : heap) :
  config a !! "SITEMAP_IGNORE_ENDPOINTS" = Some (VStr s) ->
  s ≠ "" ->
  exists ignore,
    ignore_set a h = inr ignore /\
    (forall e, py_in (VStr e) ignore = true
               <-> exists c, e = String c "" /\ c ∈ String.list_ascii_of_string s) /\
    (forall e, (2 <= String.length e)%nat -> py_in (VStr e) ignore = false).
Proof.
  intros Hv Hs.
  exists ((fun c => VStr (String c "")) <$> String.list_ascii_of_string s).
  split; [|split].
  - unfold ignore_set. rewrite Hv. simpl.
    destruct (String.eqb s "") eqn:He; [by apply String.eqb_eq in He|done].
  - intros e. apply py_in_characters.
  - intros e Hlen. apply not_true_is_false. intros Hin.
    apply py_in_characters in Hin as (c & -> & _). simpl in Hlen. lia.
Qed.

Lemma string_ignore_is_character_set_witness :
  (<["SITEMAP_IGNORE_ENDPOINTS" := VStr "admin"]> ∅ : gmap string pyval)
    !! "SITEMAP_IGNORE_ENDPOINTS" = Some (VStr "admin") /\
  "admin" ≠ "" /\
  exists ignore,
    ignore_set {| extensions := None;
                  config := <["SITEMAP_IGNORE_ENDPOINTS" := VStr "admin"]> ∅;
                  url_map := [] |} [] = inr ignore /\
    py_in (VStr "admin") ignore = false.
Proof.
  assert (Hcfg : (<["SITEMAP_IGNORE_ENDPOINTS" := VStr "admin"]> ∅
                    : gmap string pyval) !! "SITEMAP_IGNORE_ENDPOINTS"
                 = Some (VStr "admin")) by reflexivity.
  split; [exact Hcfg|]. split; [discriminate|].
  destruct (string_ignore_is_character_set
              {| extensions := None;
                 config := <["SITEMAP_IGNORE_ENDPOINTS" := VStr "admin"]> ∅;
                 url_map := [] |} "admin" [] Hcfg)
    as (ignore & Hset & _ & Hlong); [discriminate|].
  exists ignore. split; [exact Hset|]. apply Hlong. simpl. lia.
Defined.

(** ** The routes-without-params generator inside the collector *)

Lemma run_generator_unfold
    (url_for : pyval -> gmap string pyval -> exn + string)
    (ignore : list pyval) (kwargs : gmap string pyval)
    (name : string) (g : gen) (h : heap) :
  run_generator url_for ignore kwargs name g h =
    match gen_next g h with
    | Done => ([], None, h)
    | Raise e => ([], Some e, h)
    | Yield c h1 k =>
        match process_generated url_for ignore kwargs name c h1 with
        | (Fail e, h2) => ([], Some e, h2)
        | (Skip, h2) => run_generator url_for ignore kwargs name k h2
        | (Emit r, h2) =>
            let '(rs, e, h3) := run_generator url_for ignore kwargs name k h2 in
            (r :: rs, e, h3)
        end
    end.
Proof. by destruct g. Qed.

Lemma run_iter_rules
    (url_for : pyval -> gmap string pyval -> exn + string)
    (ignore : list pyval) (kwargs : gmap string pyval)
    (name : string) (u : rule -> string) (rules : list rule) (h : heap) :
  (forall r, r ∈ rules -> rule_without_params r = true ->
     py_in (VStr (endpoint r)) ignore = false ->
     url_for (VStr (endpoint r)) kwargs = inr (u r)) ->
  run_generator url_for ignore kwargs name (iter_rules rules) h =
    ((fun r => loc_record (u r)) <$>
       List.filter (fun r => rule_without_params r
                             && negb (py_in (VStr (endpoint r)) ignore)) rules,
     None,
     h ++ ((fun r => if py_in (VStr (endpoint r)) ignore then ∅ else kwargs) <$>
             List.filter rule_without_params rules)).
Proof.
  revert h. induction rules as [|r rules IH]; intros h Hurl.
  - simpl. by rewrite app_nil_r.
  - assert (Hrest : forall r', r' ∈ rules -> rule_without_params r' = true ->
              py_in (VStr (endpoint r')) ignore = false ->
              url_for (VStr (endpoint r')) kwargs = inr (u r')).
    { intros r' Hin. apply Hurl. by apply list_elem_of_further. }
    rewrite run_generator_unfold. cbn [iter_rules gen_next List.filter].
    destruct (rule_without_params r) eqn:Hr; cbn [andb alloc_dict fmap list_fmap].
    + change (process_generated url_for ignore kwargs name
                (VTuple [VStr (endpoint r); VDict (length h)]) (h ++ [∅]))
        with (resolve url_for ignore kwargs (VStr (endpoint r))
                (VDict (length h)) ∅ (h ++ [∅])).
      destruct (py_in (VStr (endpoint r)) ignore) eqn:Hin; cbn [negb].
      * rewrite resolve_ignored by done. rewrite (IH _ Hrest).
        by rewrite <- app_assoc.
      * rewrite (resolve_live _ _ _ _ (length h) ∅) by
          (try done; by rewrite lookup_app_r, Nat.sub_diag by lia).
        rewrite (right_id_L ∅ (∪)).
        rewrite (Hurl r (list_elem_of_here _ _) Hr Hin).
        rewrite insert_app_r_alt, Nat.sub_diag by lia. cbn [list_insert insert].
        rewrite (IH _ Hrest). rewrite <- app_assoc.
        unfold loc_record. by rewrite insert_empty.
    + rewrite <- run_generator_unfold. apply (IH _ Hrest).
Qed.

(** X14.  With only the routes-without-params generator and the option on,
    the sitemap has, in routing-table order, one record [{loc}] for each
    rule that has [GET] among its methods, no arguments and an endpoint
    outside the ignore set, provided [url_for] resolves those endpoints.
    Each is resolved with exactly the fixed keyword arguments, held by a
    dictionary of its own that is added to the store; the dictionary made
    for an ignored endpoint stays empty. *)
Theorem default_routes_resolved
    (url_for : pyval -> gmap string pyval -> exn + string)
    (self : Sitemap) (a : flask_app) (v : pyval) (ignore : list pyval)
    (u : rule -> string) (h : heap) :
  app self = Some a ->
  url_generators self = [RoutesWithoutParams] ->
  config a !! "SITEMAP_INCLUDE_RULES_WITHOUT_PARAMS" = Some v ->
  truthy h v = true ->
  ignore_set a h = inr ignore ->
  (forall r, r ∈ url_map a -> rule_without_params r = true ->
     py_in (VStr (endpoint r)) ignore = false ->
     url_for (VStr (endpoint r)) (url_kwargs a) = inr (u r)) ->
  _generate_all_urls url_for self h =
    ((fun r => loc_record (u r)) <$>
       List.filter (fun r => rule_without_params r
                             && negb (py_in (VStr (endpoint r)) ignore)) (url_map a),
     None,
     h ++ ((fun r => if py_in (VStr (endpoint r)) ignore then ∅ else url_kwargs a) <$>
             List.filter rule_without_params (url_map a))).
Proof.
  intros Happ Hgens Hv Ht Hig Hurl.
  unfold _generate_all_urls. rewrite Happ, Hig, Hgens, run_generators_one.
  cbn [generator_of gen_name gen_call].
  rewrite run_generator_unfold. cbn [_routes_without_params gen_next].
  rewrite Happ, Hv, Ht. rewrite <- run_generator_unfold.
  by apply run_iter_rules.
Qed.

Lemma default_routes_resolved_witness :
  app (sample_sitemap []) = Some sample_app /\
  truthy sample_heap (VBool true) = true /\
  ignore_set sample_app sample_heap = inr [VStr "admin"] /\
  _generate_all_urls sample_url_for (sample_sitemap []) sample_heap
    = ([loc_record "http://localhost/index"], None,
       sample_heap ++ [url_kwargs sample_app]).
Proof.
  split; [reflexivity|]. split; [reflexivity|]. split; [reflexivity|].
  rewrite (default_routes_resolved sample_url_for (sample_sitemap []) sample_app
             (VBool true) [VStr "admin"]
             (fun r => "http://localhost/" +:+ endpoint r) sample_heap
             eq_refl eq_refl eq_refl eq_refl eq_refl (fun r _ _ _ => eq_refl)).
  reflexivity.
Defined.

(** ** Collecting without an application or without an option *)

(** X15.  An extension object made by [Sitemap()] and never given to
    [init_app] has no [app]: collecting raises the [AttributeError] of
    [self.app] before any generator is called, whatever was registered, and
    the store is untouched. *)
Theorem uninitialised_sitemap_raises
    (url_for : pyval -> gmap string pyval -> exn + string)
    (register_blueprint : blueprint -> pyval -> flask_app -> exn + list rule)
    (config_module : list (string * pyval))
    (id : nat) (gs : list generator) (h0 h : heap) :
  _generate_all_urls url_for
    (register_all (__init__ register_blueprint config_module id None h0).1.2 gs) h
  = ([], Some (AttributeError "app"), h).
Proof. by rewrite register_all_eq. Qed.

Lemma set_default_configuration_defined
    (config_module : list (string * pyval)) (c : gmap string pyval)
    (k : string) (v : pyval) :
  (k, v) ∈ config_module -> String.prefix "SITEMAP_" k = true ->
  is_Some (set_default_configuration config_module c !! k).
Proof.
  unfold set_default_configuration. revert c.
  induction config_module as [|[k' v'] cm IH]; intros c Hin Hp.
  - by apply elem_of_nil in Hin.
  - simpl. apply elem_of_cons in Hin as [[= <- <-]|Hin]; [|by apply IH].
    rewrite Hp.
    assert (Hk : is_Some (setdefault k v c !! k)).
    { unfold setdefault. destruct (c !! k) eqn:Hc; [by rewrite Hc|].
      rewrite lookup_insert_eq. by eexists. }
    clear IH. revert Hk. generalize (setdefault k v c). clear.
    induction cm as [|[k' v'] cm IH]; intros c Hk; [done|].
    simpl. apply IH. destruct (String.prefix "SITEMAP_" k'); [|done].
    unfold setdefault. destruct (c !! k') eqn:Hc; [done|].
    destruct (decide (k' = k)) as [->|Hne]; [rewrite lookup_insert_eq; by eexists|].
    by rewrite lookup_insert_ne.
Qed.

(** X16.  The collector reads two options with [config[...]].  Without
    [SITEMAP_IGNORE_ENDPOINTS] it raises [KeyError] before any generator is
    called.  Without [SITEMAP_INCLUDE_RULES_WITHOUT_PARAMS] the
    routes-without-params generator raises [KeyError] when it is first
    resumed, and as it comes first, the registered generators are never
    called.  Neither key is missing after [init_app] has let the application
    through, if the [config] module defines it. *)
Theorem missing_option_key_error
    (url_for : pyval -> gmap string pyval -> exn + string)
    (register_blueprint : blueprint -> pyval -> flask_app -> exn + list rule)
    (config_module : list (string * pyval))
    (self : Sitemap) (a : flask_app) (h : heap) :
  app self = Some a ->
  (config a !! "SITEMAP_IGNORE_ENDPOINTS" = None ->
     _generate_all_urls url_for self h
       = ([], Some (KeyError "SITEMAP_IGNORE_ENDPOINTS"), h)) /\
  (forall ignore gs,
     ignore_set a h = inr ignore ->
     config a !! "SITEMAP_INCLUDE_RULES_WITHOUT_PARAMS" = None ->
     url_generators self = RoutesWithoutParams :: gs ->
     _generate_all_urls url_for self h
       = ([], Some (KeyError "SITEMAP_INCLUDE_RULES_WITHOUT_PARAMS"), h)) /\
  (forall other a0 h0 k v,
     default ∅ (extensions a0) !! "sitemap" = None ->
     (k, v) ∈ config_module -> String.prefix "SITEMAP_" k = true ->
     is_Some (config (init_app register_blueprint config_module other a0 h0).2 !! k)).
Proof.
  intros Happ. split; [|split].
  - intros Hk. unfold _generate_all_urls, ignore_set. by rewrite Happ, Hk.
  - intros ignore gs Hig Hk Hgens. unfold _generate_all_urls.
    rewrite Happ, Hig, Hgens. cbn [run_generators generator_of gen_name gen_call].
    rewrite run_generator_unfold. cbn [_routes_without_params gen_next].
    by rewrite Happ, Hk.
  - intros other a0 h0 k v Hnone Hin Hp.
    pose proof (set_default_configuration_defined config_module (config a0) k v Hin Hp)
      as Hdef.
    unfold init_app.
    rewrite bool_decide_eq_false_2 by (rewrite Hnone; by intros [? ?]).
    cbn zeta. by repeat case_match.
Qed.

Lemma missing_option_key_error_witness :
  app {| sm_id := 1; app := Some {| extensions := None; config := ∅; url_map := [] |};
         url_generators := [RoutesWithoutParams; Registered sample_pages];
         sm_blueprint := None |}
    = Some {| extensions := None; config := ∅; url_map := [] |} /\
  (∅ : gmap string pyval) !! "SITEMAP_IGNORE_ENDPOINTS" = None /\
  _generate_all_urls sample_url_for
    {| sm_id := 1; app := Some {| extensions := None; config := ∅; url_map := [] |};
       url_generators := [RoutesWithoutParams; Registered sample_pages];
       sm_blueprint := None |} sample_heap
    = ([], Some (KeyError "SITEMAP_IGNORE_ENDPOINTS"), sample_heap).
Proof.
  split; [reflexivity|]. split; [reflexivity|].
  exact (proj1 (missing_option_key_error sample_url_for sample_register_blueprint
                  sample_config_module
                  {| sm_id := 1;
                     app := Some {| extensions := None; config := ∅; url_map := [] |};
                     url_generators := [RoutesWithoutParams; Registered sample_pages];
                     sm_blueprint := None |}
                  {| extensions := None; config := ∅; url_map := [] |}
                  sample_heap eq_refl) eq_refl).
Defined.

(** ** An exception ends the collection *)

(** X17.  Once a generator has raised, or a candidate of it has, nothing
    more runs: the generators after it are not called and the candidates
    after the failing one are not looked at.  The records yielded before the
    exception stand, and the store is as the failing step left it. *)
Theorem exception_ends_collection
    (url_for : pyval -> gmap string pyval -> exn + string)
    (ignore : list pyval) (kwargs : gmap string pyval)
    (self : Sitemap) (name : string) (e : exn)
    (rs : list (gmap string pyval)) (h h1 : heap) :
  (forall gs1 gs2,
     run_generators url_for ignore kwargs self gs1 h = (rs, Some e, h1) ->
     run_generators url_for ignore kwargs self (gs1 ++ gs2) h = (rs, Some e, h1)) /\
  (forall cs1 cs2,
     run_generator url_for ignore kwargs name (gen_of_list cs1) h = (rs, Some e, h1) ->
     run_generator url_for ignore kwargs name (gen_of_list (cs1 ++ cs2)) h
       = (rs, Some e, h1)).
Proof.
  split.
  - intros gs1 gs2 Hrun. by rewrite run_generators_app, Hrun.
  - intros cs1 cs2 Hrun. by rewrite run_generator_app, Hrun.
Qed.

Lemma exception_ends_collection_witness :
  run_generator sample_url_for [] (url_kwargs sample_app) "pages"
    (gen_of_list [VStr "/about"; VInt 5]) sample_heap
    = ([loc_record "/about"], Some not_subscriptable, sample_heap) /\
  run_generator sample_url_for [] (url_kwargs sample_app) "pages"
    (gen_of_list ([VStr "/about"; VInt 5] ++ [VStr "/contact"])) sample_heap
    = ([loc_record "/about"], Some not_subscriptable, sample_heap).
Proof.
  assert (Hrun : run_generator sample_url_for [] (url_kwargs sample_app) "pages"
                   (gen_of_list [VStr "/about"; VInt 5]) sample_heap
                 = ([loc_record "/about"], Some not_subscriptable, sample_heap))
    by reflexivity.
  split; [exact Hrun|].
  exact (proj2 (exception_ends_collection sample_url_for [] (url_kwargs sample_app)
                  (sample_sitemap []) "pages" not_subscriptable
                  [loc_record "/about"] sample_heap sample_heap)
           [VStr "/about"; VInt 5] [VStr "/contact"] Hrun).
Defined.
